(** * SLA deadline monitor and notification derivation

    A shallow embedding of the notification subsystem of the repository:

    - [Text]: the string primitives the code relies on (JavaScript
      [includes], [toLowerCase], [parseInt], template printing of numbers,
      the regular expressions of the client, SQL [LOWER ... LIKE '%x%']);
    - [Classifier]: the [CASE] expressions of [router.get("/")] in
      [server/routes/notifications-production.ts] that derive [type] and
      [priority];
    - [Client]: [transformDbNotifications] and the escalation-manager
      rendering of the notification centre ([client/components/Footer.tsx]);
    - [Evaluator]: the call of the SQL function
      [check_subtask_sla_notifications] and the drivers that run it and
      insert its rows;
    - [AlertService]: [FinOpsAlertService.checkSubtaskSLA] and its alert log;
    - [Route]: the fallback of [GET /] when the database is unavailable;
    - [StatusStore], [WarningSync], [OverdueRoute]: the routes that mark,
      archive and write notifications.

    Strings are byte strings (UTF-8); case folding is the ASCII one, which is
    what the ASCII-only patterns of the code can observe.  JavaScript numbers
    are modelled by [Z].  The theorems that relate a displayed count to a
    stored one bound the stored count by 2^31 and the time between creation
    and reading by 2^40 ms: in that range every intermediate value is an
    integer below 2^53, and the floating-point quotient by 60000 lies
    within 1/60000 of the exact one, so that its floor and ceiling are the
    exact ones. *)

From Stdlib Require Import ZArith List String Ascii Bool Lia DecimalString.
Import ListNotations.

Local Open Scope string_scope.
Local Open Scope Z_scope.

(* ------------------------------------------------------------------ *)
(** ** String primitives *)

Module Text.

Definition is_upper (c : ascii) : bool :=
  let n := N_of_ascii c in ((65 <=? n) && (n <=? 90))%N.

Definition lower_ascii (c : ascii) : ascii :=
  if is_upper c then ascii_of_N (N_of_ascii c + 32) else c.

(** [String.prototype.toLowerCase] / SQL [LOWER], on ASCII letters. *)
Fixpoint toLowerCase (s : string) : string :=
  match s with
  | EmptyString => EmptyString
  | String c r => String (lower_ascii c) (toLowerCase r)
  end.

(** [hay.includes(needle)]; also SQL [hay LIKE '%needle%'] for a needle
    without wildcard characters. *)
Fixpoint includes (hay needle : string) : bool :=
  String.prefix needle hay ||
  match hay with
  | EmptyString => false
  | String _ r => includes r needle
  end.

(** [s?.includes(x)] and [s?.toLowerCase().includes(x)] on a possibly
    missing string: [undefined] is falsy. *)
Definition includes_opt (s : option string) (needle : string) : bool :=
  match s with Some d => includes d needle | None => false end.

Definition includes_ci_opt (s : option string) (needle : string) : bool :=
  match s with Some d => includes (toLowerCase d) needle | None => false end.

(** [a === lit] on a possibly missing string. *)
Definition is_str (a : option string) (lit : string) : bool :=
  match a with Some x => String.eqb x lit | None => false end.

Definition is_digit (c : ascii) : bool :=
  let n := N_of_ascii c in ((48 <=? n) && (n <=? 57))%N.

(** The longest prefix of decimal digits, and what follows it: the greedy
    [\d+] of the client's regular expressions (the literal after it always
    starts with a space, so backtracking never finds another match). *)
Fixpoint span_digits (s : string) : string * string :=
  match s with
  | EmptyString => (EmptyString, EmptyString)
  | String c r =>
      if is_digit c
      then let (ds, rest) := span_digits r in (String c ds, rest)
      else (EmptyString, s)
  end.

(** Drops a literal prefix, case-sensitively. *)
Fixpoint strip_prefix (lit s : string) : option string :=
  match lit, s with
  | EmptyString, _ => Some s
  | String a l, String b r => if Ascii.eqb a b then strip_prefix l r else None
  | String _ _, EmptyString => None
  end.

(** Drops a literal prefix under the [i] flag (the literals are lower case). *)
Fixpoint strip_prefix_ci (lit s : string) : option string :=
  match lit, s with
  | EmptyString, _ => Some s
  | String a l, String b r =>
      if Ascii.eqb (lower_ascii a) (lower_ascii b) then strip_prefix_ci l r else None
  | String _ _, EmptyString => None
  end.

(** The value of a string of decimal digits, as [parseInt] reads it. *)
Definition digit_val (c : ascii) : Z := Z.of_N (N_of_ascii c) - 48.

Fixpoint digits_val_acc (acc : Z) (s : string) : Z :=
  match s with
  | EmptyString => acc
  | String c r => digits_val_acc (10 * acc + digit_val c) r
  end.

Definition digits_val (s : string) : Z := digits_val_acc 0 s.

(** An integer inside a template literal. *)
Definition show_Z (z : Z) : string := NilZero.string_of_int (Z.to_int z).

(** A matcher tells whether the pattern matches at the head of its input;
    [m] then returns its capture and the input left after the match. *)
Definition matcher (A : Type) := string -> option (A * string).

(** [s.match(re)]: the leftmost match. *)
Fixpoint find_first {A} (m : matcher A) (s : string) : option A :=
  match m s with
  | Some (a, _) => Some a
  | None =>
      match s with
      | EmptyString => None
      | String _ r => find_first m r
      end
  end.

(** [s.replace(re, f)] without the [g] flag: the leftmost match is replaced
    by [f capture], the text after the match is kept by the caller's [m]. *)
Fixpoint replace_first {A} (m : matcher A) (f : A -> string) (s : string) : string :=
  match m s with
  | Some (a, rest) => f a ++ rest
  | None =>
      match s with
      | EmptyString => EmptyString
      | String c r => String c (replace_first m f r)
      end
  end.

(** [/overdue by (\d+) min/i] at the head of the input. *)
Definition re_overdue_by_min : matcher string := fun s =>
  match strip_prefix_ci "overdue by " s with
  | None => None
  | Some s1 =>
      let (ds, s2) := span_digits s1 in
      if String.eqb ds "" then None
      else match strip_prefix_ci " min" s2 with
           | None => None
           | Some s3 => Some (ds, s3)
           end
  end.

(** [/overdue by (\d+) minutes?/i] at the head of the input. *)
Definition re_overdue_by_minutes : matcher string := fun s =>
  match strip_prefix_ci "overdue by " s with
  | None => None
  | Some s1 =>
      let (ds, s2) := span_digits s1 in
      if String.eqb ds "" then None
      else match strip_prefix_ci " minute" s2 with
           | None => None
           | Some s3 =>
               match strip_prefix_ci "s" s3 with
               | Some s4 => Some (ds, s4)
               | None => Some (ds, s3)
               end
           end
  end.

(** [/overdue by (\d+) min • (\d+) min ago/i] at the head of the input. *)
Definition re_overdue_ago : matcher (string * string) := fun s =>
  match strip_prefix_ci "overdue by " s with
  | None => None
  | Some s1 =>
      let (d1, s2) := span_digits s1 in
      if String.eqb d1 "" then None
      else match strip_prefix_ci " min • " s2 with
           | None => None
           | Some s3 =>
               let (d2, s4) := span_digits s3 in
               if String.eqb d2 "" then None
               else match strip_prefix_ci " min ago" s4 with
                    | None => None
                    | Some s5 => Some ((d1, d2), s5)
                    end
           end
  end.

(** [/(\d+) min remaining/] at the head of the input. *)
Definition re_min_remaining : matcher string := fun s =>
  let (ds, s1) := span_digits s in
  if String.eqb ds "" then None
  else match strip_prefix " min remaining" s1 with
       | None => None
       | Some s2 => Some (ds, s2)
       end.

(** Line terminators, which [.] does not match: LF, CR, U+2028, U+2029. *)
Fixpoint has_line_terminator (s : string) : bool :=
  match s with
  | EmptyString => false
  | String c r =>
      Ascii.eqb c "010" || Ascii.eqb c "013"
      || (String.prefix (String "226" (String "128" (String "168" EmptyString))) s)
      || (String.prefix (String "226" (String "128" (String "169" EmptyString))) s)
      || has_line_terminator r
  end.

(** The pattern of the warning rewrite, [(\d+) min remaining] followed by a
    greedy any-character group and the end-of-input anchor, at the head of
    the input: the second group runs to the end of the input, which must
    hold no line terminator.  The whole rest is consumed; the capture is
    the pair of groups. *)
Definition re_min_remaining_tail : matcher (string * string) := fun s =>
  match re_min_remaining s with
  | None => None
  | Some (ds, tail) =>
      if has_line_terminator tail then None else Some ((ds, tail), EmptyString)
  end.

Definition is_space (c : ascii) : bool :=
  let n := N_of_ascii c in ((n =? 32) || ((9 <=? n) && (n <=? 13)))%N.

Fixpoint skip_spaces (s : string) : string :=
  match s with
  | String c r => if is_space c then skip_spaces r else s
  | EmptyString => EmptyString
  end.

Definition hex_val (c : ascii) : option Z :=
  let n := N_of_ascii c in
  if ((48 <=? n) && (n <=? 57))%N then Some (Z.of_N n - 48)
  else if ((97 <=? n) && (n <=? 102))%N then Some (Z.of_N n - 87)
  else if ((65 <=? n) && (n <=? 70))%N then Some (Z.of_N n - 55)
  else None.

Fixpoint hex_prefix_val (acc : option Z) (s : string) : option Z :=
  match s with
  | EmptyString => acc
  | String c r =>
      match hex_val c with
      | Some d => hex_prefix_val (Some (16 * match acc with Some a => a | None => 0 end + d)) r
      | None => acc
      end
  end.

Definition dec_prefix_val (s : string) : option Z :=
  let (ds, _) := span_digits s in
  if String.eqb ds "" then None else Some (digits_val ds).

Definition unsigned_prefix_val (s : string) : option Z :=
  match s with
  | String "0" (String x r) =>
      if Ascii.eqb x "x" || Ascii.eqb x "X" then hex_prefix_val None r
      else dec_prefix_val s
  | _ => dec_prefix_val s
  end.

(** [parseInt(s)] without a radix: leading white space, an optional sign, a
    [0x] prefix for hexadecimal, then the longest prefix of digits; [None]
    stands for [NaN]. *)
Definition parseInt (s : string) : option Z :=
  match skip_spaces s with
  | String "-" r => option_map Z.opp (unsigned_prefix_val r)
  | String "+" r => unsigned_prefix_val r
  | t => unsigned_prefix_val t
  end.


(** No match of the pattern starts inside [pre], the input being
    [pre ++ suf]: the leftmost match, if any, starts in [suf]. *)
Fixpoint no_match_within {A} (m : matcher A) (pre suf : string) : bool :=
  match pre with
  | EmptyString => true
  | String c p =>
      match m (pre ++ suf) with
      | Some _ => false
      | None => no_match_within m p suf
      end
  end.

End Text.

(* ------------------------------------------------------------------ *)
(** ** The notification taxonomy *)

Inductive NotificationType : Type :=
  | sla_warning | sla_overdue | task_delayed | task_completed
  | task_pending | daily_reminder | escalation.

Inductive Priority : Type := low | medium | high | critical.

Definition NotificationType_eqb (a b : NotificationType) : bool :=
  match a, b with
  | sla_warning, sla_warning | sla_overdue, sla_overdue
  | task_delayed, task_delayed | task_completed, task_completed
  | task_pending, task_pending | daily_reminder, daily_reminder
  | escalation, escalation => true
  | _, _ => false
  end.

(* ------------------------------------------------------------------ *)
(** ** Server-side classification: the CASE expressions of [GET /] *)

Module Classifier.
Import Text.

(** A row of [finops_activity_log] as the CASE expressions see it.  Both
    columns are nullable; a comparison with NULL is not true, so its WHEN
    branch is not taken. *)
Record RawEvent : Type := mkRawEvent {
  action : option string;
  details : option string
}.

Definition action_in (e : RawEvent) (l : list string) : bool :=
  existsb (is_str (action e)) l.

(** [LOWER(rn.details) LIKE '%pat%']. *)
Definition like (e : RawEvent) (pat : string) : bool :=
  includes_ci_opt (details e) pat.

(** [CASE ... END as type]. *)
Definition sql_type (e : RawEvent) : NotificationType :=
  if is_str (action e) "delay_reported" then task_delayed
  else if is_str (action e) "overdue_notification_sent" then sla_overdue
  else if is_str (action e) "completion_notification_sent" then task_completed
  else if is_str (action e) "sla_alert" then sla_warning
  else if is_str (action e) "escalation_required" then escalation
  else if like e "overdue" then sla_overdue
  else if action_in e ["status_changed"; "task_status_changed"] && like e "overdue"
       then sla_overdue
  else if action_in e ["status_changed"; "task_status_changed"] && like e "completed"
       then task_completed
  else if like e "starting in" || like e "sla warning" then sla_warning
  else if like e "min remaining" then sla_warning
  else if like e "pending" && like e "need to start" then task_pending
  else if like e "pending status" then task_pending
  else daily_reminder.

(** [CASE ... END as priority]. *)
Definition sql_priority (e : RawEvent) : Priority :=
  if is_str (action e) "delay_reported"
     || is_str (action e) "overdue_notification_sent"
     || like e "overdue" then critical
  else if is_str (action e) "completion_notification_sent" then low
  else if is_str (action e) "sla_alert" || like e "starting in"
          || like e "sla warning" || like e "min remaining" then high
  else if is_str (action e) "escalation_required" then critical
  else if like e "pending" && like e "need to start" then medium
  else if like e "pending status" then medium
  else medium.

(** The pair the endpoint returns for a row. *)
Definition classify (e : RawEvent) : NotificationType * Priority :=
  (sql_type e, sql_priority e).

(** [/test/overdue-check]: the type and priority the verification endpoint
    expects of every row whose details mention "overdue". *)
Definition should_be_type (e : RawEvent) : option NotificationType :=
  if like e "overdue" then Some sla_overdue else None.

Definition should_be_priority (e : RawEvent) : option Priority :=
  if like e "overdue" then Some critical else None.

End Classifier.

(* ------------------------------------------------------------------ *)
(** ** Client-side live recomputation: [transformDbNotifications] *)

Module Client.
Import Text.

(** A row as [GET /] delivers it.  [created_at] is the creation instant in
    milliseconds since the epoch ([new Date(created_at).getTime()]); [None]
    is a missing value.  [priority] is the server's CASE result. *)
Record DbNotification : Type := mkDbNotification {
  task_id : Z;
  action : option string;
  details : option string;
  created_at : option Z;
  db_priority : option Priority;
  db_read : bool
}.

Inductive Status : Type := unread | read | archived.

(** The [FinOpsNotification] the notification centre renders.  The
    presentation strings [title], [task_name], [client_name] and
    [subtask_name] take no part in the properties below and are left out. *)
Record FinOpsNotification : Type := mkFinOpsNotification {
  type : NotificationType;
  message : string;
  assigned_to : string;
  reporting_managers : list string;
  escalation_managers : list string;
  priority : Priority;
  status : Status;
  notif_created_at : option Z;
  action_required : bool;
  delay_reason : option string;
  sla_remaining : option string;
  overdue_minutes : option Z;
  members_list : list string
}.

(** The mutable locals of one iteration of the [map] callback. *)
Record Live : Type := mkLive {
  realTimeDetails : option string;
  realTimeSlaRemaining : option string;
  isExpiredSLA : bool;
  overdueMinutesFromSLA : Z;
  overdueMinutes : option Z
}.

(** Truthiness of a number that may be [undefined]: [0] is falsy. *)
Definition truthy (n : option Z) : bool :=
  match n with Some k => negb (k =? 0) | None => false end.

(** [Math.floor(ms / 60000)]. *)
Definition floor_minutes (ms : Z) : Z := ms / 60000.

(** [Math.ceil(ms / 60000)]. *)
Definition ceil_minutes (ms : Z) : Z := - ((- ms) / 60000).

(** [details?.match(/overdue by (\d+) min/i) ||
     details?.match(/overdue by (\d+) minutes?/i)], first group. *)
Definition overdueMatch (d : option string) : option string :=
  match d with
  | None => None
  | Some s =>
      match find_first re_overdue_by_min s with
      | Some ds => Some ds
      | None => find_first re_overdue_by_minutes s
      end
  end.

Definition overdue_text (n m : Z) : string :=
  "Overdue by " ++ show_Z n ++ " min • " ++ show_Z m ++ " min ago".

Definition initial_live (n : DbNotification) : Live :=
  {| realTimeDetails := details n;
     realTimeSlaRemaining := None;
     isExpiredSLA := false;
     overdueMinutesFromSLA := 0;
     overdueMinutes := option_map digits_val (overdueMatch (details n)) |}.

(** The block "For existing overdue notifications, calculate current
    overdue time". *)
Definition overdue_step (currentTime : option Z) (n : DbNotification) (l : Live) : Live :=
  match overdueMinutes l, currentTime, created_at n, details n with
  | Some o, Some now, Some notificationTime, Some d =>
      if truthy (Some o) && is_str (action n) "overdue_notification_sent" then
        let timeSinceNotificationMs := now - notificationTime in
        let minutesSinceNotification := floor_minutes timeSinceNotificationMs in
        let currentOverdueMinutes := o + minutesSinceNotification in
        let totalTimeAgo := floor_minutes timeSinceNotificationMs + 2 in
        {| realTimeDetails :=
             Some (replace_first re_overdue_ago
                     (fun _ => overdue_text currentOverdueMinutes totalTimeAgo) d);
           realTimeSlaRemaining := realTimeSlaRemaining l;
           isExpiredSLA := isExpiredSLA l;
           overdueMinutesFromSLA := overdueMinutesFromSLA l;
           overdueMinutes := Some currentOverdueMinutes |}
      else l
  | _, _, _, _ => l
  end.

(** The block "Calculate real-time remaining minutes for SLA warnings".
    [exactRemainingMs] is [exactRemainingMinutes] times 60000. *)
Definition warning_step (currentTime : option Z) (n : DbNotification) (l : Live) : Live :=
  match currentTime, details n with
  | Some now, Some d =>
      if includes d "SLA Warning - " && includes d "min remaining" then
        match find_first re_min_remaining d, created_at n with
        | Some ds, Some notificationTime =>
            let originalMinutes := digits_val ds in
            let timeDiffMs := now - notificationTime in
            let exactRemainingMs := originalMinutes * 60000 - timeDiffMs in
            let currentRemainingMinutes := Z.max 0 (ceil_minutes exactRemainingMs) in
            if exactRemainingMs <=? 0 then
              let fromSLA := floor_minutes (Z.abs exactRemainingMs) in
              {| realTimeDetails :=
                   Some (overdue_text fromSLA (floor_minutes timeDiffMs));
                 realTimeSlaRemaining :=
                   Some ("Overdue by " ++ show_Z fromSLA ++ " min");
                 isExpiredSLA := true;
                 overdueMinutesFromSLA := fromSLA;
                 overdueMinutes := overdueMinutes l |}
            else
              {| realTimeDetails :=
                   Some (replace_first re_min_remaining_tail
                           (fun g => show_Z currentRemainingMinutes
                                     ++ " min remaining" ++ snd g) d);
                 realTimeSlaRemaining :=
                   Some (show_Z currentRemainingMinutes ++ " min remaining");
                 isExpiredSLA := isExpiredSLA l;
                 overdueMinutesFromSLA := overdueMinutesFromSLA l;
                 overdueMinutes := overdueMinutes l |}
        | _, _ => l
        end
      else l
  | _, _ => l
  end.

Definition live (currentTime : option Z) (n : DbNotification) : Live :=
  warning_step currentTime n (overdue_step currentTime n (initial_live n)).

(** "Determine notification type based on action and details". *)
Definition notificationType (l : Live) (n : DbNotification) : NotificationType :=
  if isExpiredSLA l then sla_overdue
  else if is_str (action n) "overdue_notification_sent"
          || includes_ci_opt (details n) "overdue"
          || (is_str (action n) "task_status_changed"
              && includes_ci_opt (details n) "overdue")
       then sla_overdue
  else if is_str (action n) "sla_alert"
          || is_str (action n) "sla_warning"
          || includes_opt (details n) "starting in"
          || includes_opt (details n) "sla warning"
          || includes_opt (details n) "min remaining"
       then sla_warning
  else if is_str (action n) "escalation_required" then escalation
  else if (includes_ci_opt (details n) "pending"
           && includes_ci_opt (details n) "need to start")
          || includes_ci_opt (details n) "pending status"
       then task_pending
  else daily_reminder.

Record Members : Type := mkMembers {
  m_assigned_to : string;
  m_reporting_managers : list string;
  m_escalation_managers : list string;
  m_members_list : list string
}.

(** [getMembersForTask]: the table keyed by task id, with its default. *)
Definition getMembersForTask (taskId : Z) : Members :=
  match taskId with
  | 1 => mkMembers "John Durairaj" ["Albert Kumar"; "Hari Prasad"]
           ["Sarah Wilson"; "Mike Johnson"]
           ["John Durairaj"; "Albert Kumar"; "Hari Prasad"; "Sarah Wilson"; "Mike Johnson"]
  | 2 => mkMembers "Maria Garcia" ["Robert Chen"] ["David Lee"]
           ["Maria Garcia"; "Robert Chen"; "David Lee"]
  | 3 => mkMembers "Alex Thompson" ["Jennifer Smith"; "Mark Davis"] ["Lisa Brown"]
           ["Alex Thompson"; "Jennifer Smith"; "Mark Davis"; "Lisa Brown"]
  | 4 => mkMembers "Test User" ["Manager One"; "Manager Two"] ["Escalation Manager"]
           ["Test User"; "Manager One"; "Manager Two"; "Escalation Manager"]
  | 5 => mkMembers "Maria Garcia" ["Robert Chen"] ["Sarah Wilson"]
           ["Maria Garcia"; "Robert Chen"; "Sarah Wilson"]
  | 6 => mkMembers "Maria Garcia" ["Robert Chen"] ["Sarah Wilson"]
           ["Maria Garcia"; "Robert Chen"; "Sarah Wilson"]
  | 16 => mkMembers "Sanjay Kumar" ["Sarumathi Manickam"; "Vishnu Vardhan"]
            ["Harini NL"; "Vishal S"]
            ["Sanjay Kumar"; "Mugundhan Selvam"; "Sarumathi Manickam";
             "Vishnu Vardhan"; "Harini NL"; "Vishal S"]
  | _ => mkMembers "Unassigned" [] [] []
  end.

(** One iteration of the [map] callback. *)
Definition transformDbNotification (currentTime : option Z) (n : DbNotification)
  : FinOpsNotification :=
  let l := live currentTime n in
  let notifType := notificationType l n in
  let members := getMembersForTask (task_id n) in
  {| type := notifType;
     message := match realTimeDetails l with Some d => d | None => "" end;
     assigned_to := m_assigned_to members;
     reporting_managers := m_reporting_managers members;
     escalation_managers := m_escalation_managers members;
     priority :=
       if truthy (overdueMinutes l) || isExpiredSLA l then critical
       else match db_priority n with Some p => p | None => medium end;
     status := if db_read n then read else unread;
     notif_created_at := created_at n;
     action_required :=
       NotificationType_eqb notifType sla_overdue
       || NotificationType_eqb notifType escalation
       || isExpiredSLA l
       || (NotificationType_eqb notifType sla_warning
           && (includes_opt (details n) "min remaining"
               || includes_opt (details n) "need to start"));
     delay_reason :=
       if is_str (action n) "delay_reported" then Some "Process delayed" else None;
     sla_remaining :=
       match realTimeSlaRemaining l with
       | Some s => Some s
       | None =>
           match overdueMinutes l with
           | Some o => if truthy (Some o)
                       then Some ("Overdue by " ++ show_Z o ++ " min") else None
           | None => None
           end
       end;
     overdue_minutes := overdueMinutes l;
     members_list := m_members_list members |}.

Definition transformDbNotifications (dbNotifications : list DbNotification)
  (currentTime : option Z) : list FinOpsNotification :=
  map (transformDbNotification currentTime) dbNotifications.

Definition nonempty {A} (l : list A) : bool :=
  match l with [] => false | _ :: _ => true end.

(** Whether the card of a notification shows the line "Escalation
    Managers: ...": the line sits inside the "Team Members" block, which is
    rendered for a non-empty [members_list]. *)
Definition shows_escalation_managers (n : FinOpsNotification) : bool :=
  nonempty (members_list n)
  && NotificationType_eqb (type n) sla_overdue
  && nonempty (escalation_managers n).

End Client.

(* ------------------------------------------------------------------ *)
(** ** The SQL evaluator: [check_subtask_sla_notifications] and its drivers *)

Module Evaluator.

(** Instants are PostgreSQL timestamps in microseconds; a [TIME] value is a
    number of microseconds since midnight. *)
Definition minute : Z := 60000000.
Definition hour : Z := 60 * minute.
Definition day : Z := 24 * hour.

(** A row of [finops_subtasks]: the columns the function names, and the SLA
    budget ([sla_hours], [sla_minutes]), which it does not name. *)
Record Subtask : Type := mkSubtask {
  st_id : Z;
  st_task_id : Z;
  st_name : string;
  st_assigned_to : option string;
  start_time : option Z;
  auto_notify : option bool;
  st_status : string;
  st_sla_hours : Z;
  st_sla_minutes : Z
}.

(** The columns of [finops_tasks] the function names. *)
Record Task : Type := mkTask {
  t_id : Z;
  t_task_name : string;
  t_assigned_to : option string;
  is_active : bool
}.

(** A row of [finops_activity_log]: a notification event. *)
Record Event : Type := mkEvent {
  ev_action : string;
  ev_task_id : Z;
  ev_subtask_id : option Z;
  ev_user_name : string;
  ev_details : string;
  ev_timestamp : Z
}.

Record Db : Type := mkDb {
  subtasks : list Subtask;
  tasks : list Task;
  activity_log : list Event
}.

(** A row of the function's result table. *)
Record NotificationRow : Type := mkNotificationRow {
  notification_type : string;
  subtask_id : Z;
  task_id : Z;
  task_name : option string;
  subtask_name : string;
  assigned_to : option string;
  time_diff_minutes : Z;
  message : string
}.

(** *** The analysis of the function's first query

    The first RETURN QUERY computes, in its select list,
    [fs.start_time - current_time].  PostgreSQL analyses the query when the
    statement is first executed in a call, before it reads any row. *)

Inductive SqlType : Type :=
  | sql_integer
  | sql_date
  | sql_time
  | sql_timetz
  | sql_timestamp
  | sql_timestamptz
  | sql_interval.

Definition SqlType_eqb (a b : SqlType) : bool :=
  match a, b with
  | sql_integer, sql_integer | sql_date, sql_date | sql_time, sql_time
  | sql_timetz, sql_timetz | sql_timestamp, sql_timestamp
  | sql_timestamptz, sql_timestamptz | sql_interval, sql_interval => true
  | _, _ => false
  end.

(** The two operands of the subtraction. *)
Inductive Operand : Type :=
  | fs_start_time
  | current_time.

(** [fs.start_time] is the column of [ALTER TABLE finops_subtasks ADD COLUMN
    IF NOT EXISTS start_time TIME].  The function declares a variable
    [current_time TIME := CURRENT_TIME], but PL/pgSQL puts its variables in
    the place of column references only: in the text of a query the word
    [current_time] is the SQL key word CURRENT_TIME, a
    [time with time zone]. *)
Definition operand_type (o : Operand) : SqlType :=
  match o with
  | fs_start_time => sql_time
  | current_time => sql_timetz
  end.

(** The binary [-] operators of PostgreSQL on dates and times: the types of
    the left operand, of the right operand and of the result. *)
Definition minus_operators : list (SqlType * SqlType * SqlType) :=
  [ (sql_date, sql_date, sql_integer);
    (sql_date, sql_integer, sql_date);
    (sql_date, sql_interval, sql_timestamp);
    (sql_time, sql_time, sql_interval);
    (sql_time, sql_interval, sql_time);
    (sql_timetz, sql_interval, sql_timetz);
    (sql_timestamp, sql_timestamp, sql_interval);
    (sql_timestamp, sql_interval, sql_timestamp);
    (sql_timestamptz, sql_timestamptz, sql_interval);
    (sql_timestamptz, sql_interval, sql_timestamptz);
    (sql_interval, sql_interval, sql_interval) ].

(** The casts among these types that PostgreSQL applies implicitly. *)
Definition implicit_cast (from to : SqlType) : bool :=
  match from, to with
  | sql_date, sql_timestamp | sql_date, sql_timestamptz
  | sql_time, sql_timetz | sql_time, sql_interval
  | sql_timestamp, sql_timestamptz => true
  | _, _ => false
  end.

(** A parameter of an operator accepts an operand of its own type or of a
    type with an implicit cast to it. *)
Definition accepts (param arg : SqlType) : bool :=
  SqlType_eqb param arg || implicit_cast arg param.

(** Operator resolution finds an operator for [a - b] only among those that
    accept both operands. *)
Definition has_minus_operator (a b : SqlType) : bool :=
  existsb (fun op => accepts (fst (fst op)) a && accepts (snd (fst op)) b)
    minus_operators.

(** The outcome of [SELECT * FROM check_subtask_sla_notifications()]. *)
Inductive CallResult : Type :=
  | Raised
  | Returned (rows : list NotificationRow).

Section Function.

(** What the executor returns for the two queries once their analysis has
    passed; the properties below hold whatever it is. *)
Variable execute : Db -> Z -> list NotificationRow.

(** [SELECT * FROM check_subtask_sla_notifications()] at the instant [now]:
    "operator does not exist" is raised when the subtraction of the first
    query has no operator. *)
Definition check_subtask_sla_notifications (db : Db) (now : Z) : CallResult :=
  if has_minus_operator (operand_type fs_start_time) (operand_type current_time)
  then Returned (execute db now)
  else Raised.

(** [notification.notification_type === "sla_warning" ? "sla_alert"
     : "overdue_notification_sent"]. *)
Definition action_of_row (r : NotificationRow) : string :=
  if String.eqb (notification_type r) "sla_warning"
  then "sla_alert" else "overdue_notification_sent".

(** The INSERT of a driver's loop; [NOW()] is the instant of the
    statement. *)
Definition insert_notification (now : Z) (r : NotificationRow) : Event :=
  {| ev_action := action_of_row r;
     ev_task_id := task_id r;
     ev_subtask_id := Some (subtask_id r);
     ev_user_name := "System";
     ev_details := message r;
     ev_timestamp := now |}.


(** *** The drivers

    Three places run a pass: the prologue of [GET /], [POST /auto-sync]
    and the timer of [POST /enable-auto-sync].  Each calls the function,
    then inserts the returned rows one statement at a time, all inside a
    [try]; no transaction or lock spans the statements, so the statements
    of several passes, and the writes of other routes, interleave.

    [Pass] is the state of one pass between two of its statements. *)
Inductive Pass : Type :=
  | Calling
  | Inserting (rows : list NotificationRow)
  | Completed
  | Caught.







(** A pass that runs alone, from the call to its end: the final state of
    the pass and the events it appended. *)
Definition pass_alone (db : Db) (now : Z) : Pass * list Event :=
  match check_subtask_sla_notifications db now with
  | Raised => (Caught, [])
  | Returned rows => (Completed, map (insert_notification now) rows)
  end.

(** Whether the function reports the subtask with the given result type. *)
Definition reports (db : Db) (now : Z) (ty : string) (sub : Z) : bool :=
  match check_subtask_sla_notifications db now with
  | Raised => false
  | Returned rows =>
      existsb (fun r => String.eqb (notification_type r) ty && (subtask_id r =? sub)) rows
  end.

End Function.



End Evaluator.

(* ------------------------------------------------------------------ *)
(** ** [FinOpsAlertService]: the per-subtask SLA check *)

Module AlertService.

(** The subtask object built by [getActiveTasksWithSubtasks].  Instants are
    JavaScript times in milliseconds. *)
Record Subtask : Type := mkSubtask {
  id : Z;
  name : string;
  sla_hours : Z;
  sla_minutes : Z;
  status : string;
  started_at : option Z
}.

(** A row of [finops_alerts]. *)
Record Alert : Type := mkAlert {
  al_task_id : Z;
  al_subtask_id : Z;
  alert_type : string;
  recipients : string;
  minutes_data : Z;
  al_created_at : Z
}.

Inductive Decision : Type :=
  | SendOverdue (minutesOverdue : Z)
  | SendWarning (minutesRemaining : Z)
  | NoAlert.

(** The time zone of the process: the offset of local time from UTC in
    milliseconds, at an instant ([LocalTZA(t, true)]) and at a local time
    value ([LocalTZA(t, false)]). *)
Record Zone : Type := mkZone {
  offset_at_instant : Z -> Z;
  offset_at_local : Z -> Z
}.

(** [LocalTime(t)] and [UTC(t)] of ECMAScript. *)
Definition LocalTime (z : Zone) (t : Z) : Z := t + offset_at_instant z t.
Definition UTC (z : Zone) (t : Z) : Z := t - offset_at_local z t.

(** [d.setHours(d.getHours() + k)]: the hour field of the local time of
    [d] is moved by [k], the other fields are kept, and the result is taken
    back to an instant. *)
Definition setHours_plus (z : Zone) (d k : Z) : Z :=
  UTC z (LocalTime z d + k * 3600000).

(** [d.setMinutes(d.getMinutes() + k)]. *)
Definition setMinutes_plus (z : Zone) (d k : Z) : Z :=
  UTC z (LocalTime z d + k * 60000).

(** [dueTime]: the start instant, or the current one for a subtask not yet
    started, moved forward by the SLA budget. *)
Definition dueTime (z : Zone) (now : Z) (s : Subtask) : Z :=
  setMinutes_plus z
    (setHours_plus z (match started_at s with Some t => t | None => now end)
       (sla_hours s))
    (sla_minutes s).

(** [Math.floor(timeDiff / (1000 * 60))]. *)
Definition minutesRemaining (z : Zone) (now : Z) (s : Subtask) : Z :=
  (dueTime z now s - now) / 60000.

(** The branch [checkSubtaskSLA] takes. *)
Definition decide (z : Zone) (now : Z) (s : Subtask) : Decision :=
  let m := minutesRemaining z now s in
  if m <? 0 then SendOverdue (Z.abs m)
  else if (m <=? 15) && (m >? 0) then SendWarning m
  else NoAlert.

(** "Check if warning already sent" / "Check if overdue alert already
    sent": an alert of the type for the subtask, newer than the lookback. *)
Definition existingAlert (alerts : list Alert) (task sub : Z) (ty : string)
  (lookback now : Z) : list Alert :=
  filter (fun a => (al_task_id a =? task) && (al_subtask_id a =? sub)
                   && String.eqb (alert_type a) ty
                   && (al_created_at a >? now - lookback)) alerts.

(** [sendSLAWarningAlert] on the alert log: lookback of one hour. *)
Definition sendSLAWarningAlert (now task : Z) (s : Subtask) (m : Z)
  (alerts : list Alert) : list Alert :=
  match existingAlert alerts task (id s) "sla_warning" 3600000 now with
  | _ :: _ => alerts
  | [] => alerts ++ [mkAlert task (id s) "sla_warning"
                       "assigned_user,reporting_managers" m now]
  end.

(** [sendSLAOverdueAlert] on the alert log: lookback of thirty minutes. *)
Definition sendSLAOverdueAlert (now task : Z) (s : Subtask) (m : Z)
  (alerts : list Alert) : list Alert :=
  match existingAlert alerts task (id s) "sla_overdue" 1800000 now with
  | _ :: _ => alerts
  | [] => alerts ++ [mkAlert task (id s) "sla_overdue" "all" m now]
  end.

(** [checkSubtaskSLA] on the alert log and the subtask's status. *)
Definition checkSubtaskSLA (z : Zone) (now task : Z) (s : Subtask) (alerts : list Alert)
  : list Alert * Subtask :=
  match decide z now s with
  | SendOverdue m =>
      (sendSLAOverdueAlert now task s m alerts,
       mkSubtask (id s) (name s) (sla_hours s) (sla_minutes s) "overdue" (started_at s))
  | SendWarning m => (sendSLAWarningAlert now task s m alerts, s)
  | NoAlert => (alerts, s)
  end.

(** A zone whose offset never changes, such as UTC or Asia/Kolkata. *)
Definition constant_zone (off : Z) : Zone := mkZone (fun _ => off) (fun _ => off).

End AlertService.

(* ------------------------------------------------------------------ *)
(** ** [GET /]: the answer when the database is unavailable *)

Module Route.
Import Text.

(** An element of [mockNotifications].  [created_before] is the age of the
    entry, in milliseconds, at the instant the module is loaded
    ([created_at] is the ISO form of that instant minus the age). *)
Record MockNotification : Type := mkMock {
  id : string;
  type : string;
  title : string;
  description : string;
  user_id : Z;
  client_id : Z;
  client_name : string;
  entity_type : string;
  entity_id : string;
  priority : string;
  read : bool;
  created_before : Z;
  action_url : string
}.

Definition mockNotifications : list MockNotification :=
  [ mkMock "1" "overdue" "Overdue: Client Onboarding - Step 1"
      "Initial Contact for 'Acme Corp' is 2 days overdue. Action required."
      1 1 "Acme Corp" "task" "1" "high" false (2 * 60 * 60 * 1000) "/leads/1";
    mkMock "2" "followup" "New Follow-up: Project Alpha"
      "A new follow-up note has been added to 'Project Alpha' by Jane Smith."
      1 2 "Beta Corp" "lead" "2" "medium" false (24 * 60 * 60 * 1000) "/leads/2";
    mkMock "3" "completed" "Onboarding Complete: Global Solutions"
      "Client 'Global Solutions' has successfully completed their onboarding process."
      1 3 "Global Solutions" "client" "3" "low" true (5 * 24 * 60 * 60 * 1000)
      "/clients/3" ].

(** [req.query]: each parameter is a string or absent. *)
Record Query : Type := mkQuery {
  q_user_id : option string;
  q_type : option string;
  q_read : option string;
  q_limit : option string;
  q_offset : option string
}.

(** Numbers that may be [NaN] are [option Z], [None] being [NaN]. *)
Record Pagination : Type := mkPagination {
  total : Z;
  limit : option Z;
  offset : option Z;
  has_more : bool
}.

Record Response (Row : Type) : Type := mkResponse {
  status_code : Z;
  notifications : list Row;
  pagination : Pagination;
  unread_count : Z
}.

Arguments mkResponse {Row}.
Arguments status_code {Row}.
Arguments notifications {Row}.
Arguments pagination {Row}.
Arguments unread_count {Row}.

(** Truthiness of a query string: the empty string is falsy. *)
Definition truthy_str (s : option string) : bool :=
  match s with Some x => negb (String.eqb x "") | None => false end.

(** The index a [slice] bound denotes on a list of length [len]. *)
Definition relative_index (len : Z) (k : option Z) : Z :=
  match k with
  | None => 0
  | Some k => if k <? 0 then Z.max (len + k) 0 else Z.min k len
  end.

(** [Array.prototype.slice(start, stop)]. *)
Definition js_slice {A} (l : list A) (start stop : option Z) : list A :=
  let len := Z.of_nat (List.length l) in
  let a := relative_index len start in
  let b := relative_index len stop in
  firstn (Z.to_nat (b - a)) (skipn (Z.to_nat a) l).

Definition nan_add (a b : option Z) : option Z :=
  match a, b with Some x, Some y => Some (x + y) | _, _ => None end.

(** [a < b] on numbers that may be [NaN]. *)
Definition nan_ltb (a : option Z) (b : Z) : bool :=
  match a with Some x => x <? b | None => false end.

(** The filters of the mock branch, in order: [user_id], [type], [read]. *)
Definition filteredNotifications (q : Query) : list MockNotification :=
  let l0 := mockNotifications in
  let l1 :=
    if truthy_str (q_user_id q)
    then filter (fun n => match q_user_id q with
                          | Some u => match parseInt u with
                                      | Some k => user_id n =? k
                                      | None => false
                                      end
                          | None => false
                          end) l0
    else l0 in
  let l2 :=
    if truthy_str (q_type q)
    then filter (fun n => is_str (q_type q) (type n)) l1
    else l1 in
  match q_read q with
  | Some r => filter (fun n => Bool.eqb (read n) (String.eqb r "true")) l2
  | None => l2
  end.

Definition count_unread (l : list MockNotification) : Z :=
  Z.of_nat (List.length (filter (fun n => negb (read n)) l)).

(** [limit = 50] and [offset = 0] are the defaults of the destructuring. *)
Definition limitNum (q : Query) : option Z :=
  match q_limit q with Some s => parseInt s | None => Some 50 end.

Definition offsetNum (q : Query) : option Z :=
  match q_offset q with Some s => parseInt s | None => Some 0 end.

(** The [else] branch of the handler: "Database unavailable, using mock
    notifications". *)
Definition mock_branch (q : Query) : Response MockNotification :=
  let fl := filteredNotifications q in
  let total := Z.of_nat (List.length fl) in
  {| status_code := 200;
     notifications := js_slice fl (offsetNum q) (nan_add (offsetNum q) (limitNum q));
     pagination :=
       {| total := total;
          limit := limitNum q;
          offset := offsetNum q;
          has_more := nan_ltb (nan_add (offsetNum q) (limitNum q)) total |};
     unread_count := count_unread fl |}.

(** [parseInt(x) || d]: [NaN] and [0] are falsy. *)
Definition parse_or (s : option string) (d : Z) : Z :=
  match s with
  | Some x => match parseInt x with
              | Some k => if k =? 0 then d else k
              | None => d
              end
  | None => d
  end.

(** The [catch] block: "Fallback to mock data". *)
Definition catch_fallback (q : Query) : Response MockNotification :=
  {| status_code := 200;
     notifications := mockNotifications;
     pagination :=
       {| total := Z.of_nat (List.length mockNotifications);
          limit := Some (parse_or (q_limit q) 50);
          offset := Some (parse_or (q_offset q) 0);
          has_more := false |};
     unread_count := count_unread mockNotifications |}.

Section Handler.

(** The rows of the database branch and the branch itself, which either
    answers or throws ([None]); [isDatabaseAvailable] never throws. *)
Variable DbRow : Type.
Variable db_branch : Query -> option (Response DbRow).

(** [router.get("/")]. *)
Definition get_notifications (isDatabaseAvailable : bool) (q : Query)
  : Response DbRow + Response MockNotification :=
  if isDatabaseAvailable then
    match db_branch q with
    | Some r => inl r
    | None => inr (catch_fallback q)
    end
  else inr (mock_branch q).

End Handler.

Definition no_filter : Query := mkQuery None None None None None.

End Route.

(* ================================================================== *)
(** * Properties *)

(* ------------------------------------------------------------------ *)
(** ** Classification *)

Module ClassifierProofs.
Import Text Classifier.

Lemma is_str_Some (a : option string) (lit : string) :
  a = Some lit -> is_str a lit = true.
Proof. intros ->. simpl. apply String.eqb_refl. Qed.

(** The type CASE tests the five action tags before any substring of the
    details: a tagged event keeps the type of its tag whatever its text. *)
Lemma sql_type_sla_alert (e : RawEvent) :
  action e = Some "sla_alert" -> sql_type e = sla_warning.
Proof. intros H. unfold sql_type. rewrite H. reflexivity. Qed.

(** The priority CASE tests the "overdue" substring in its first branch. *)
Lemma sql_priority_overdue (e : RawEvent) :
  like e "overdue" = true -> sql_priority e = critical.
Proof.
  intros H. unfold sql_priority. rewrite H.
  rewrite !orb_true_r. reflexivity.
Qed.

(** C6. For an event tagged [sla_alert] whose details contain "overdue"
    (in any case), the CASE expressions of [GET /] return type
    [sla_warning] with priority [critical]: the type CASE reaches the tag
    [sla_alert] before the substring "overdue", while the priority CASE and
    the verification endpoint [/test/overdue-check] (which expects
    [sla_overdue]) put the substring first. *)
Theorem sla_alert_overdue_detail_classified_warning (e : RawEvent) :
  action e = Some "sla_alert" ->
  like e "overdue" = true ->
  classify e = (sla_warning, critical)
  /\ should_be_type e = Some sla_overdue
  /\ should_be_priority e = Some critical.
Proof.
  intros Ha Hd. unfold classify, should_be_type, should_be_priority.
  rewrite (sql_type_sla_alert e Ha), (sql_priority_overdue e Hd), Hd.
  repeat split.
Qed.

Lemma sla_alert_overdue_detail_witness :
  classify (mkRawEvent (Some "sla_alert") (Some "Task is OVERDUE by 3 min"))
    = (sla_warning, critical)
  /\ should_be_type (mkRawEvent (Some "sla_alert") (Some "Task is OVERDUE by 3 min"))
     = Some sla_overdue
  /\ should_be_priority (mkRawEvent (Some "sla_alert") (Some "Task is OVERDUE by 3 min"))
     = Some critical.
Proof.
  apply (sla_alert_overdue_detail_classified_warning
           (mkRawEvent (Some "sla_alert") (Some "Task is OVERDUE by 3 min")));
    reflexivity.
Defined.

(** C7, as stated, fails: an event tagged [delay_reported] is not given
    priority [medium]. *)
Lemma delay_reported_not_medium :
  classify (mkRawEvent (Some "delay_reported") (Some "Process delayed by vendor"))
  <> (task_delayed, medium).
Proof. vm_compute. discriminate. Qed.

(** C7, amended. For every event tagged [delay_reported], whatever its
    details, the CASE expressions return type [task_delayed] and priority
    [critical]: [delay_reported] is listed in the first, critical branch of
    the priority CASE. *)
Theorem delay_reported_classified_critical (e : RawEvent) :
  action e = Some "delay_reported" ->
  classify e = (task_delayed, critical).
Proof.
  intros H. unfold classify, sql_type, sql_priority. rewrite H. reflexivity.
Qed.

Lemma delay_reported_witness :
  classify (mkRawEvent (Some "delay_reported") None) = (task_delayed, critical).
Proof.
  apply (delay_reported_classified_critical (mkRawEvent (Some "delay_reported") None)).
  reflexivity.
Defined.

End ClassifierProofs.

(* ------------------------------------------------------------------ *)
(** ** String lemmas *)

Module TextProofs.
Import Text.

Lemma strip_prefix_prefix (lit s r : string) :
  strip_prefix lit s = Some r -> String.prefix lit s = true.
Proof.
  revert s; induction lit as [|a l IH]; intros s H.
  - destruct s; reflexivity.
  - destruct s as [|b s']; simpl in H; [discriminate|].
    simpl. destruct (Ascii.eqb a b) eqn:E; [|discriminate].
    apply Ascii.eqb_eq in E. subst b.
    destruct (ascii_dec a a) as [_|N]; [|congruence].
    eauto.
Qed.

Lemma includes_prefix (s x : string) :
  String.prefix x s = true -> includes s x = true.
Proof. intros H. destruct s; cbn [includes]; rewrite H; reflexivity. Qed.

Lemma includes_tail (c : ascii) (s x : string) :
  includes s x = true -> includes (String c s) x = true.
Proof. intros H. cbn [includes]. rewrite H. apply orb_true_r. Qed.

Lemma includes_after_digits (s ds s1 x : string) :
  span_digits s = (ds, s1) -> includes s1 x = true -> includes s x = true.
Proof.
  revert ds s1; induction s as [|c r IH]; intros ds s1 H Hx; simpl in H.
  - inversion H; subst. exact Hx.
  - destruct (is_digit c).
    + destruct (span_digits r) as [ds' rest] eqn:E. inversion H; subst.
      apply includes_tail. eapply IH; eauto.
    + inversion H; subst. exact Hx.
Qed.

Lemma re_min_remaining_includes (s ds r : string) :
  re_min_remaining s = Some (ds, r) -> includes s "min remaining" = true.
Proof.
  unfold re_min_remaining. destruct (span_digits s) as [d s1] eqn:E.
  destruct (String.eqb d ""); [discriminate|].
  destruct (strip_prefix " min remaining" s1) as [s2|] eqn:S; [|discriminate].
  intros _. eapply includes_after_digits; [exact E|].
  destruct s1 as [|b s1']; cbn [strip_prefix] in S; [discriminate|].
  apply includes_tail.
  destruct (Ascii.eqb _ b); [|discriminate].
  apply includes_prefix. eapply strip_prefix_prefix. exact S.
Qed.

(** A leftmost match lies somewhere in the input: whatever holds of every
    input the pattern matches at its head, and passes to longer inputs,
    holds of an input with a match. *)
Lemma find_first_elim {A} (m : matcher A) (P : string -> Prop) :
  (forall s a r, m s = Some (a, r) -> P s) ->
  (forall c s, P s -> P (String c s)) ->
  forall s a, find_first m s = Some a -> P s.
Proof.
  intros Hm Hc. induction s as [|c r IH]; intros a H; simpl in H.
  - destruct (m EmptyString) as [[a' r']|] eqn:E; [|discriminate].
    eapply Hm; eauto.
  - destruct (m (String c r)) as [[a' r']|] eqn:E.
    + eapply Hm; eauto.
    + apply Hc. eapply IH; eauto.
Qed.

Lemma find_min_remaining_includes (s ds : string) :
  find_first re_min_remaining s = Some ds -> includes s "min remaining" = true.
Proof.
  apply (find_first_elim re_min_remaining
           (fun s => includes s "min remaining" = true)).
  - intros s0 a r H. eapply re_min_remaining_includes; eauto.
  - intros c s0 H. apply includes_tail; exact H.
Qed.

Lemma find_first_head {A} (m : matcher A) (s : string) (a : A) (r : string) :
  m s = Some (a, r) -> find_first m s = Some a.
Proof. intros H. destruct s; simpl; rewrite H; reflexivity. Qed.

Lemma replace_first_head {A} (m : matcher A) (f : A -> string)
  (s : string) (a : A) (r : string) :
  m s = Some (a, r) -> replace_first m f s = f a ++ r.
Proof. intros H. destruct s; simpl; rewrite H; reflexivity. Qed.

Lemma strip_prefix_ci_app (a b s r : string) :
  strip_prefix_ci (a ++ b) s = Some r ->
  exists r', strip_prefix_ci a s = Some r'.
Proof.
  revert s; induction a as [|c a IH]; intros s H.
  - exists s. reflexivity.
  - destruct s as [|d s']; cbn [strip_prefix_ci append] in *; [discriminate|].
    destruct (Ascii.eqb (lower_ascii c) (lower_ascii d)); [|discriminate].
    eauto.
Qed.

(** A detail that starts with "overdue by N min • K min ago" starts with
    "overdue by N min". *)
Lemma re_overdue_ago_by_min (s d1 d2 r : string) :
  re_overdue_ago s = Some ((d1, d2), r) ->
  exists r', re_overdue_by_min s = Some (d1, r').
Proof.
  unfold re_overdue_ago, re_overdue_by_min.
  destruct (strip_prefix_ci "overdue by " s) as [s1|]; [|discriminate].
  destruct (span_digits s1) as [ds s2].
  destruct (String.eqb ds ""); [discriminate|].
  destruct (strip_prefix_ci " min • " s2) as [s3|] eqn:E; [|discriminate].
  change " min • " with (" min" ++ " • ") in E.
  apply strip_prefix_ci_app in E. destruct E as [r' ->].
  destruct (span_digits s3) as [e s4].
  destruct (String.eqb e ""); [discriminate|].
  destruct (strip_prefix_ci " min ago" s4); [|discriminate].
  intros H; inversion H; subst. eauto.
Qed.


Lemma app_empty_r (s : string) : s ++ "" = s.
Proof. induction s as [|c s IH]; cbn [append]; [|rewrite IH]; reflexivity. Qed.

(** The leftmost match of an input whose matches start after [pre]. *)
Lemma find_first_within {A} (m : matcher A) (pre suf : string) (a : A) (r : string) :
  no_match_within m pre suf = true ->
  m suf = Some (a, r) ->
  find_first m (pre ++ suf) = Some a.
Proof.
  intros Hn Hm. induction pre as [|c p IH]; cbn [append].
  - apply (find_first_head m suf a r Hm).
  - cbn [no_match_within append] in Hn. cbn [find_first].
    destruct (m (String c (p ++ suf))); [discriminate|]. apply IH. exact Hn.
Qed.

Lemma replace_first_within {A} (m : matcher A) (f : A -> string)
  (pre suf : string) (a : A) (r : string) :
  no_match_within m pre suf = true ->
  m suf = Some (a, r) ->
  replace_first m f (pre ++ suf) = pre ++ f a ++ r.
Proof.
  intros Hn Hm. induction pre as [|c p IH]; cbn [append].
  - apply (replace_first_head m f suf a r Hm).
  - cbn [no_match_within append] in Hn. cbn [replace_first].
    destruct (m (String c (p ++ suf))); [discriminate|]. rewrite IH by exact Hn.
    reflexivity.
Qed.

(** A pattern that matches only where another one does has no match where
    the other has none. *)
Lemma no_match_within_weaken {A B} (m : matcher A) (m' : matcher B) (pre suf : string) :
  (forall s, m s = None -> m' s = None) ->
  no_match_within m pre suf = true ->
  no_match_within m' pre suf = true.
Proof.
  intros H. induction pre as [|c p IH]; cbn [no_match_within append]; [reflexivity|].
  destruct (m (String c (p ++ suf))) eqn:E; [discriminate|].
  rewrite (H _ E). exact IH.
Qed.

Lemma strip_prefix_ci_lower (lit s r : string) :
  strip_prefix_ci lit s = Some r ->
  String.prefix (toLowerCase lit) (toLowerCase s) = true.
Proof.
  revert s; induction lit as [|a l IH]; intros s H.
  - destruct s; reflexivity.
  - destruct s as [|b s']; cbn [strip_prefix_ci] in H; [discriminate|].
    cbn [toLowerCase String.prefix].
    destruct (Ascii.eqb (lower_ascii a) (lower_ascii b)) eqn:E; [|discriminate].
    apply Ascii.eqb_eq in E. rewrite E.
    destruct (ascii_dec (lower_ascii b) (lower_ascii b)) as [_|N]; [|congruence].
    eauto.
Qed.

(** Both overdue patterns match only a text that starts with "overdue",
    in either case. *)
Lemma re_overdue_by_min_overdue (s ds r : string) :
  re_overdue_by_min s = Some (ds, r) ->
  String.prefix "overdue" (toLowerCase s) = true.
Proof.
  unfold re_overdue_by_min.
  destruct (strip_prefix_ci "overdue by " s) as [s1|] eqn:E; [|discriminate].
  intros _. change "overdue by " with ("overdue" ++ " by ") in E.
  apply strip_prefix_ci_app in E. destruct E as [r' E].
  exact (strip_prefix_ci_lower _ _ _ E).
Qed.

Lemma re_overdue_by_minutes_overdue (s ds r : string) :
  re_overdue_by_minutes s = Some (ds, r) ->
  String.prefix "overdue" (toLowerCase s) = true.
Proof.
  unfold re_overdue_by_minutes.
  destruct (strip_prefix_ci "overdue by " s) as [s1|] eqn:E; [|discriminate].
  intros _. change "overdue by " with ("overdue" ++ " by ") in E.
  apply strip_prefix_ci_app in E. destruct E as [r' E].
  exact (strip_prefix_ci_lower _ _ _ E).
Qed.

Lemma find_overdue_includes (m : matcher string) (s ds : string) :
  (forall s0 a r, m s0 = Some (a, r) -> String.prefix "overdue" (toLowerCase s0) = true) ->
  find_first m s = Some ds ->
  includes (toLowerCase s) "overdue" = true.
Proof.
  intros Hm.
  apply (find_first_elim m (fun s => includes (toLowerCase s) "overdue" = true)).
  - intros s0 a r H. apply includes_prefix. exact (Hm s0 a r H).
  - intros c s0 H. cbn [toLowerCase]. apply includes_tail; exact H.
Qed.

End TextProofs.

(* ------------------------------------------------------------------ *)
(** ** Live recomputation and rendering *)

Module ClientProofs.
Import Text Client TextProofs.

(** [Math.ceil] and [Math.floor] of a quotient by one minute. *)
Lemma ceil_minutes_spec (ms : Z) :
  60000 * (ceil_minutes ms - 1) < ms <= 60000 * ceil_minutes ms.
Proof.
  unfold ceil_minutes.
  pose proof (Z.div_mod (- ms) 60000 ltac:(lia)).
  pose proof (Z.mod_pos_bound (- ms) 60000 ltac:(lia)).
  lia.
Qed.

Lemma floor_minutes_spec (ms : Z) :
  60000 * floor_minutes ms <= ms < 60000 * (floor_minutes ms + 1).
Proof.
  unfold floor_minutes.
  pose proof (Z.div_mod ms 60000 ltac:(lia)).
  pose proof (Z.mod_pos_bound ms 60000 ltac:(lia)).
  lia.
Qed.

(** The warning block on a record with a parsable countdown. *)
Lemma warning_step_eq (n : DbNotification) (l : Live) (d ds : string) (t0 now : Z) :
  details n = Some d ->
  created_at n = Some t0 ->
  includes d "SLA Warning - " = true ->
  find_first re_min_remaining d = Some ds ->
  warning_step (Some now) n l =
    let exact := digits_val ds * 60000 - (now - t0) in
    if exact <=? 0 then
      {| realTimeDetails :=
           Some (overdue_text (floor_minutes (Z.abs exact)) (floor_minutes (now - t0)));
         realTimeSlaRemaining :=
           Some ("Overdue by " ++ show_Z (floor_minutes (Z.abs exact)) ++ " min");
         isExpiredSLA := true;
         overdueMinutesFromSLA := floor_minutes (Z.abs exact);
         overdueMinutes := overdueMinutes l |}
    else
      {| realTimeDetails :=
           Some (replace_first re_min_remaining_tail
                   (fun g => show_Z (Z.max 0 (ceil_minutes exact))
                             ++ " min remaining" ++ snd g) d);
         realTimeSlaRemaining :=
           Some (show_Z (Z.max 0 (ceil_minutes exact)) ++ " min remaining");
         isExpiredSLA := isExpiredSLA l;
         overdueMinutesFromSLA := overdueMinutesFromSLA l;
         overdueMinutes := overdueMinutes l |}.
Proof.
  intros Hd Hc Hw Hm. unfold warning_step.
  rewrite Hd, Hc, Hw, Hm, (find_min_remaining_includes d ds Hm).
  reflexivity.
Qed.

(** The scenario of the countdown: a warning created with 15 minutes left
    reads "10 min remaining" five minutes later and is overdue by one
    minute sixteen minutes later. *)
Definition warning_15 (t0 : Z) : DbNotification :=
  {| task_id := 16;
     action := Some "sla_alert";
     details := Some "SLA Warning - 15 min remaining • need to start";
     created_at := Some t0;
     db_priority := Some high;
     db_read := false |}.

(** The type of a record that is no overdue record and mentions a
    countdown. *)
Lemma notificationType_warning (l : Live) (n : DbNotification) (d : string) :
  isExpiredSLA l = false ->
  is_str (action n) "overdue_notification_sent" = false ->
  details n = Some d ->
  includes (toLowerCase d) "overdue" = false ->
  includes d "min remaining" = true ->
  notificationType l n = sla_warning.
Proof.
  intros He Ha Hd Ho Hm. unfold notificationType.
  rewrite He, Ha, Hd. cbn [includes_ci_opt includes_opt]. rewrite Ho, Hm.
  cbn [orb andb]. rewrite andb_false_r, !orb_true_r. reflexivity.
Qed.

(** A detail without the word "overdue" carries no overdue count. *)
Lemma overdueMatch_none (d : string) :
  includes (toLowerCase d) "overdue" = false -> overdueMatch (Some d) = None.
Proof.
  intros H. cbn [overdueMatch].
  destruct (find_first re_overdue_by_min d) as [ds|] eqn:E1.
  - rewrite (find_overdue_includes _ _ _ re_overdue_by_min_overdue E1) in H. discriminate.
  - destruct (find_first re_overdue_by_minutes d) as [ds|] eqn:E2; [|reflexivity].
    rewrite (find_overdue_includes _ _ _ re_overdue_by_minutes_overdue E2) in H.
    discriminate.
Qed.

(** C4, as stated, fails: sixteen minutes after a warning was created with
    15 minutes left, the record is displayed as overdue by one minute, but
    its [overdue_minutes] is undefined, not 1: the field is only set from
    a stored text "overdue by N min". *)
Lemma promoted_warning_has_no_overdue_minutes :
  type (transformDbNotification (Some (1000 + 16 * 60000)) (warning_15 1000))
    = sla_overdue
  /\ sla_remaining (transformDbNotification (Some (1000 + 16 * 60000)) (warning_15 1000))
     = Some "Overdue by 1 min"
  /\ overdue_minutes (transformDbNotification (Some (1000 + 16 * 60000)) (warning_15 1000))
     = None
  /\ overdue_minutes (transformDbNotification (Some (1000 + 16 * 60000)) (warning_15 1000))
     <> Some 1.
Proof. repeat split; try reflexivity. vm_compute. discriminate. Qed.

(** C4, amended. A warning record: its detail [pre ++ suf] contains
    "SLA Warning - " and no "overdue", the leftmost "R min remaining" is
    the head of [suf], followed by [tail] without a line break, and its
    action tag is not [overdue_notification_sent]; [R] is at most 2^31 and
    the record is read within 2^40 ms of its creation at [t0].  With
    [exact = R min - (now - t0)] in milliseconds: while [exact > 0] the
    record is displayed as [sla_warning], its detail with the count
    replaced by [c = ceil(exact / 1 min)], and "c min remaining"; once
    [exact <= 0] it is displayed as [sla_overdue], with priority
    [critical] and the texts "Overdue by k min • e min ago" and
    "Overdue by k min" for [k = floor(|exact| / 1 min)] and [e] the whole
    minutes since [t0].  In both cases [overdue_minutes] is undefined, and
    the result is a new value that keeps the creation instant. *)
Theorem warning_live_recomputation
  (n : DbNotification) (pre suf ds tail : string) (t0 now : Z) :
  details n = Some (pre ++ suf) ->
  created_at n = Some t0 ->
  is_str (action n) "overdue_notification_sent" = false ->
  includes (pre ++ suf) "SLA Warning - " = true ->
  includes (toLowerCase (pre ++ suf)) "overdue" = false ->
  no_match_within re_min_remaining pre suf = true ->
  re_min_remaining suf = Some (ds, tail) ->
  has_line_terminator tail = false ->
  digits_val ds <= 2 ^ 31 ->
  Z.abs (now - t0) <= 2 ^ 40 ->
  let exact := digits_val ds * 60000 - (now - t0) in
  let out := transformDbNotification (Some now) n in
  overdue_minutes out = None
  /\ notif_created_at out = Some t0
  /\ (0 < exact ->
        type out = sla_warning
        /\ message out = pre ++ show_Z (ceil_minutes exact) ++ " min remaining" ++ tail
        /\ sla_remaining out = Some (show_Z (ceil_minutes exact) ++ " min remaining")
        /\ priority out = match db_priority n with Some p => p | None => medium end
        /\ 60000 * (ceil_minutes exact - 1) < exact <= 60000 * ceil_minutes exact)
  /\ (exact <= 0 ->
        type out = sla_overdue
        /\ priority out = critical
        /\ message out
           = overdue_text (floor_minutes (Z.abs exact)) (floor_minutes (now - t0))
        /\ sla_remaining out
           = Some ("Overdue by " ++ show_Z (floor_minutes (Z.abs exact)) ++ " min")
        /\ 60000 * floor_minutes (Z.abs exact) <= Z.abs exact
           < 60000 * (floor_minutes (Z.abs exact) + 1)).
Proof.
  intros Hd Hc Ha Hw Ho Hn Hm Ht _ _ exact out.
  assert (Hf : find_first re_min_remaining (pre ++ suf) = Some ds)
    by (apply (find_first_within _ _ _ _ _ Hn Hm)).
  assert (Hi : overdueMinutes (initial_live n) = None)
    by (unfold initial_live; cbn [overdueMinutes]; rewrite Hd, (overdueMatch_none _ Ho);
        reflexivity).
  assert (Hs : overdue_step (Some now) n (initial_live n) = initial_live n)
    by (unfold overdue_step; rewrite Hi; reflexivity).
  assert (Hl : live (Some now) n
               = warning_step (Some now) n (overdue_step (Some now) n (initial_live n)))
    by reflexivity.
  rewrite (warning_step_eq n _ (pre ++ suf) ds t0 now Hd Hc Hw Hf) in Hl.
  cbv zeta in Hl. fold exact in Hl. rewrite Hs in Hl.
  split; [|split; [|split]].
  - subst out. unfold transformDbNotification. cbv zeta. rewrite Hl.
    destruct (exact <=? 0); cbn [overdue_minutes overdueMinutes]; exact Hi.
  - subst out. unfold transformDbNotification. cbv zeta.
    cbn [notif_created_at]. exact Hc.
  - intros Hpos.
    subst out. unfold transformDbNotification. cbv zeta. rewrite Hl.
    destruct (exact <=? 0) eqn:E; [apply Z.leb_le in E; lia|].
    pose proof (ceil_minutes_spec exact) as C.
    cbn [type message sla_remaining priority realTimeDetails realTimeSlaRemaining
         overdueMinutes isExpiredSLA].
    rewrite Z.max_r by lia.
    rewrite (notificationType_warning _ n (pre ++ suf)); cbn [isExpiredSLA];
      [ | reflexivity | exact Ha | exact Hd | exact Ho
        | exact (find_min_remaining_includes _ _ Hf) ].
    split; [reflexivity|]. split; [|split; [reflexivity|split; [|exact C]]].
    + rewrite (replace_first_within re_min_remaining_tail _ pre suf (ds, tail) "").
      * cbn [snd]. rewrite app_empty_r. reflexivity.
      * apply (no_match_within_weaken re_min_remaining); [|exact Hn].
        intros s E'. unfold re_min_remaining_tail. rewrite E'. reflexivity.
      * unfold re_min_remaining_tail. rewrite Hm, Ht. reflexivity.
    + rewrite Hi. reflexivity.
  - intros Hneg.
    subst out. unfold transformDbNotification. cbv zeta. rewrite Hl.
    destruct (exact <=? 0) eqn:E; [|apply Z.leb_gt in E; lia].
    cbn [type priority sla_remaining message realTimeSlaRemaining realTimeDetails
         isExpiredSLA notificationType].
    rewrite orb_true_r.
    repeat split; try apply floor_minutes_spec.
Qed.

Lemma warning_live_recomputation_witness :
  (type (transformDbNotification (Some (1000 + 5 * 60000)) (warning_15 1000))
     = sla_warning
   /\ message (transformDbNotification (Some (1000 + 5 * 60000)) (warning_15 1000))
      = "SLA Warning - 10 min remaining • need to start"
   /\ sla_remaining (transformDbNotification (Some (1000 + 5 * 60000)) (warning_15 1000))
      = Some "10 min remaining")
  /\ (type (transformDbNotification (Some (1000 + 16 * 60000)) (warning_15 1000))
        = sla_overdue
      /\ message (transformDbNotification (Some (1000 + 16 * 60000)) (warning_15 1000))
         = "Overdue by 1 min • 16 min ago").
Proof.
  pose proof (warning_live_recomputation (warning_15 1000)
                "SLA Warning - " "15 min remaining • need to start" "15"
                " • need to start" 1000 (1000 + 5 * 60000)
                eq_refl eq_refl eq_refl eq_refl eq_refl eq_refl eq_refl eq_refl
                ltac:(vm_compute; discriminate) ltac:(vm_compute; discriminate)) as H5.
  pose proof (warning_live_recomputation (warning_15 1000)
                "SLA Warning - " "15 min remaining • need to start" "15"
                " • need to start" 1000 (1000 + 16 * 60000)
                eq_refl eq_refl eq_refl eq_refl eq_refl eq_refl eq_refl eq_refl
                ltac:(vm_compute; discriminate) ltac:(vm_compute; discriminate)) as H16.
  cbv zeta in H5, H16.
  destruct H5 as [_ [_ [H5 _]]]. destruct H16 as [_ [_ [_ H16]]].
  specialize (H5 ltac:(vm_compute; reflexivity)).
  specialize (H16 ltac:(vm_compute; discriminate)).
  destruct H5 as [A [B [C _]]]. destruct H16 as [D [_ [F _]]].
  split; [split; [exact A | split; [exact B | exact C]] | split; [exact D | exact F]].
Defined.

(** The overdue block on a record whose first "overdue by N min" is the
    head of a text "overdue by N min • K min ago", with a non-zero
    count. *)
Lemma overdue_step_eq (n : DbNotification) (pre suf ds ks rest : string) (t0 now : Z) :
  action n = Some "overdue_notification_sent" ->
  details n = Some (pre ++ suf) ->
  created_at n = Some t0 ->
  no_match_within re_overdue_by_min pre suf = true ->
  re_overdue_ago suf = Some ((ds, ks), rest) ->
  digits_val ds <> 0 ->
  overdue_step (Some now) n (initial_live n) =
    {| realTimeDetails :=
         Some (pre ++ overdue_text (digits_val ds + floor_minutes (now - t0))
                        (floor_minutes (now - t0) + 2) ++ rest);
       realTimeSlaRemaining := None;
       isExpiredSLA := false;
       overdueMinutesFromSLA := 0;
       overdueMinutes := Some (digits_val ds + floor_minutes (now - t0)) |}.
Proof.
  intros Ha Hd Hc Hn Hm Hnz.
  destruct (re_overdue_ago_by_min suf ds ks rest Hm) as [r' Hby].
  unfold overdue_step, initial_live. cbn [overdueMinutes].
  rewrite Hd, Hc. cbn [overdueMatch].
  rewrite (find_first_within _ _ _ _ _ Hn Hby). cbn [option_map].
  rewrite Ha. cbn [truthy is_str].
  destruct (digits_val ds =? 0) eqn:E; [apply Z.eqb_eq in E; contradiction|].
  rewrite String.eqb_refl. cbn [negb andb].
  rewrite (replace_first_within re_overdue_ago _ pre suf (ds, ks) rest);
    [reflexivity | | exact Hm].
  apply (no_match_within_weaken re_overdue_by_min); [|exact Hn].
  intros s E'. destruct (re_overdue_ago s) as [[[d1 d2] r]|] eqn:E2; [|reflexivity].
  destruct (re_overdue_ago_by_min s d1 d2 r E2) as [r2 E3]. congruence.
Qed.

Lemma warning_step_skip (n : DbNotification) (l : Live) (d : string) (now : Z) :
  details n = Some d ->
  includes d "SLA Warning - " && includes d "min remaining" = false ->
  warning_step (Some now) n l = l.
Proof. intros Hd Hw. unfold warning_step. rewrite Hd, Hw. reflexivity. Qed.

Definition overdue_5 (t0 : Z) : DbNotification :=
  {| task_id := 16;
     action := Some "overdue_notification_sent";
     details := Some "Overdue by 5 min • 5 min ago";
     created_at := Some t0;
     db_priority := Some critical;
     db_read := false |}.

(** C5, as stated, fails: three minutes after an overdue record was
    created with "Overdue by 5 min", the text reads "8 min" and "5 min
    ago", not "3 min ago". *)
Lemma overdue_time_ago_is_not_elapsed :
  message (transformDbNotification (Some (1000 + 3 * 60000)) (overdue_5 1000))
    = "Overdue by 8 min • 5 min ago"
  /\ message (transformDbNotification (Some (1000 + 3 * 60000)) (overdue_5 1000))
     <> overdue_text (5 + floor_minutes (3 * 60000)) (floor_minutes (3 * 60000)).
Proof. split; [reflexivity | vm_compute; discriminate]. Qed.

(** C5, amended. An overdue record (tag [overdue_notification_sent])
    created at [t0]: in its detail [pre ++ suf] the first
    "overdue by N min" (letters in either case) is the head of [suf], a
    text "overdue by N0 min • K min ago" followed by [rest]; [N0] is not
    zero and at most 2^31, the detail is not also a warning text (it does
    not contain both "SLA Warning - " and "min remaining"), and the record
    is read within 2^40 ms of [t0].  Read at [now], [e] whole minutes
    after [t0], it carries [overdue_minutes = N0 + e] and its detail with
    that text replaced by "Overdue by (N0 + e) min • (e + 2) min ago". *)
Theorem overdue_live_recomputation
  (n : DbNotification) (pre suf ds ks rest : string) (t0 now : Z) :
  action n = Some "overdue_notification_sent" ->
  details n = Some (pre ++ suf) ->
  created_at n = Some t0 ->
  no_match_within re_overdue_by_min pre suf = true ->
  re_overdue_ago suf = Some ((ds, ks), rest) ->
  digits_val ds <> 0 ->
  digits_val ds <= 2 ^ 31 ->
  Z.abs (now - t0) <= 2 ^ 40 ->
  includes (pre ++ suf) "SLA Warning - " && includes (pre ++ suf) "min remaining" = false ->
  let e := floor_minutes (now - t0) in
  let out := transformDbNotification (Some now) n in
  overdue_minutes out = Some (digits_val ds + e)
  /\ message out = pre ++ overdue_text (digits_val ds + e) (e + 2) ++ rest
  /\ type out = sla_overdue
  /\ 60000 * e <= now - t0 < 60000 * (e + 1).
Proof.
  intros Ha Hd Hc Hn Hm Hnz _ _ Hw e out.
  assert (Hl : live (Some now) n
               = {| realTimeDetails :=
                      Some (pre ++ overdue_text (digits_val ds + e) (e + 2) ++ rest);
                    realTimeSlaRemaining := None;
                    isExpiredSLA := false;
                    overdueMinutesFromSLA := 0;
                    overdueMinutes := Some (digits_val ds + e) |}).
  { unfold live. rewrite (warning_step_skip n _ (pre ++ suf) now Hd Hw).
    apply overdue_step_eq with (suf := suf) (ks := ks); assumption. }
  subst out. unfold transformDbNotification. cbv zeta. rewrite Hl.
  cbn [overdue_minutes message type overdueMinutes realTimeDetails
       notificationType isExpiredSLA].
  rewrite Ha. cbn [is_str]. rewrite String.eqb_refl. cbn [orb].
  repeat split; apply floor_minutes_spec.
Qed.

(** A record whose overdue text follows other text. *)
Definition overdue_54 (t0 : Z) : DbNotification :=
  {| task_id := 16;
     action := Some "overdue_notification_sent";
     details := Some "Start: 04:00 PM Pending Overdue by 54 min • 1 min ago";
     created_at := Some t0;
     db_priority := Some critical;
     db_read := false |}.

Lemma overdue_live_recomputation_witness :
  overdue_minutes (transformDbNotification (Some (1000 + 3 * 60000)) (overdue_54 1000))
    = Some 57
  /\ message (transformDbNotification (Some (1000 + 3 * 60000)) (overdue_54 1000))
     = "Start: 04:00 PM Pending Overdue by 57 min • 5 min ago".
Proof.
  pose proof (overdue_live_recomputation (overdue_54 1000)
                "Start: 04:00 PM Pending " "Overdue by 54 min • 1 min ago"
                "54" "1" "" 1000 (1000 + 3 * 60000)
                eq_refl eq_refl eq_refl eq_refl eq_refl
                ltac:(vm_compute; discriminate) ltac:(vm_compute; discriminate)
                ltac:(vm_compute; discriminate) eq_refl) as H.
  cbv zeta in H. destruct H as [H1 [H2 _]].
  split; [exact H1 | exact H2].
Defined.

Lemma NotificationType_eqb_eq (a b : NotificationType) :
  NotificationType_eqb a b = true <-> a = b.
Proof. destruct a, b; simpl; split; intros H; congruence. Qed.

Lemma nonempty_true {A} (l : list A) : nonempty l = true <-> l <> [].
Proof. destruct l; simpl; split; intros H; congruence. Qed.

Definition escalation_event : DbNotification :=
  {| task_id := 1;
     action := Some "escalation_required";
     details := Some "Manager review needed";
     created_at := Some 0;
     db_priority := Some critical;
     db_read := false |}.

(** C8, as stated, fails: a notification of type [escalation] for a task
    with escalation managers does not show them. *)
Lemma escalation_type_hides_escalation_managers :
  ~ (shows_escalation_managers (transformDbNotification (Some 0) escalation_event) = true
     <-> (type (transformDbNotification (Some 0) escalation_event) = sla_overdue
          \/ type (transformDbNotification (Some 0) escalation_event) = escalation)).
Proof.
  intros [_ H]. specialize (H (or_intror eq_refl)).
  vm_compute in H. discriminate.
Qed.

(** The members table knows the tasks 1 to 6 and 16; any other task gets
    the default entry, with empty lists. *)
Lemma members_known (k : Z) :
  (m_escalation_managers (getMembersForTask k) <> []
   /\ m_members_list (getMembersForTask k) <> [])
  <-> In k [1; 2; 3; 4; 5; 6; 16].
Proof.
  destruct (in_dec Z.eq_dec k [1; 2; 3; 4; 5; 6; 16]) as [Hin|Hnin].
  - split; [intros _; exact Hin|]. intros _. cbn [In] in Hin.
    repeat (destruct Hin as [<-|Hin]; [split; discriminate|]). contradiction.
  - split; [|intros H; contradiction]. intros [H _]. exfalso. apply H.
    unfold getMembersForTask.
    destruct k as [|p|p]; try reflexivity.
    repeat (destruct p as [p|p|]; try reflexivity);
      exfalso; apply Hnin; cbn [In]; tauto.
Qed.

(** C8, amended. The card of a notification shows the escalation managers
    if and only if its type is [sla_overdue] and its escalation-manager
    and member lists are not empty; for a notification derived from a
    database row, if and only if its type is [sla_overdue] and the row's
    task is one of the tasks of the members table. *)
Theorem escalation_managers_shown_iff :
  (forall n : FinOpsNotification,
     shows_escalation_managers n = true <->
     type n = sla_overdue /\ escalation_managers n <> [] /\ members_list n <> [])
  /\ (forall (now : option Z) (r : DbNotification),
        shows_escalation_managers (transformDbNotification now r) = true <->
        type (transformDbNotification now r) = sla_overdue
        /\ In (task_id r) [1; 2; 3; 4; 5; 6; 16]).
Proof.
  assert (G : forall n : FinOpsNotification,
     shows_escalation_managers n = true <->
     type n = sla_overdue /\ escalation_managers n <> [] /\ members_list n <> []).
  { intros n. unfold shows_escalation_managers.
    rewrite !andb_true_iff, !nonempty_true, NotificationType_eqb_eq. tauto. }
  split; [exact G|].
  intros now r. rewrite G.
  assert (M : (escalation_managers (transformDbNotification now r) <> []
               /\ members_list (transformDbNotification now r) <> [])
              <-> In (task_id r) [1; 2; 3; 4; 5; 6; 16]).
  { unfold transformDbNotification. cbv zeta.
    cbn [escalation_managers members_list].
    apply members_known. }
  tauto.
Qed.

End ClientProofs.

(* ------------------------------------------------------------------ *)
(** ** The fallback of [GET /] *)

Module RouteProofs.
Import Text Route.

Lemma In_firstn_in {A} (n : nat) (l : list A) (x : A) :
  In x (firstn n l) -> In x l.
Proof.
  revert l; induction n as [|n IH]; intros [|a l] H; simpl in *; try contradiction.
  destruct H as [->|H]; [left; reflexivity | right; apply IH; exact H].
Qed.

Lemma In_skipn_in {A} (n : nat) (l : list A) (x : A) :
  In x (skipn n l) -> In x l.
Proof.
  revert l; induction n as [|n IH]; intros [|a l] H; simpl in *; try contradiction.
  - exact H.
  - right; apply IH; exact H.
Qed.

Lemma js_slice_incl {A} (l : list A) (a b : option Z) : incl (js_slice l a b) l.
Proof.
  intros x H. unfold js_slice in H.
  eapply In_skipn_in, In_firstn_in; exact H.
Qed.

Lemma filteredNotifications_incl (q : Query) :
  incl (filteredNotifications q) mockNotifications.
Proof.
  intros x H. unfold filteredNotifications in H.
  repeat match type of H with
         | In _ (match ?c with _ => _ end) => destruct c
         | In _ (if ?c then _ else _) => destruct c
         | In _ (filter _ _) => apply filter_In in H; destruct H as [H _]
         end; exact H.
Qed.

(** C9, as stated, fails: with the database unavailable and no filter in
    the query, the answer is not an empty result set. *)
Lemma unavailable_store_answer_not_empty :
  ~ (exists r,
       get_notifications unit (fun _ => None) false no_filter = inr r
       /\ notifications r = []).
Proof.
  intros [r [H E]]. cbn [get_notifications] in H. inversion H; subst r.
  vm_compute in E. discriminate.
Qed.

(** C9, amended. The store is unavailable in two ways.  When the
    availability probe fails, [GET /] answers (status 200) with the slice
    [offset, offset + limit) of the mock notifications that pass the
    filters of the query, [total] counting the filtered ones.  When the
    probe passes and a query of the database branch then fails, it
    answers (status 200) with all three mock notifications, unfiltered,
    with [total = 3], no [has_more], and [limit] and [offset] read with
    the defaults 50 and 0.  A query without parameters gets all three
    mock notifications, two of them unread, either way. *)
Theorem unavailable_store_answers_with_mocks :
  (forall (DbRow : Type) (db_branch : Query -> option (Response DbRow)) (q : Query),
     exists r,
       get_notifications DbRow db_branch false q = inr r
       /\ status_code r = 200
       /\ notifications r
          = js_slice (filteredNotifications q) (offsetNum q)
              (nan_add (offsetNum q) (limitNum q))
       /\ total (pagination r) = Z.of_nat (List.length (filteredNotifications q))
       /\ incl (notifications r) mockNotifications)
  /\ (forall (DbRow : Type) (db_branch : Query -> option (Response DbRow)) (q : Query),
        db_branch q = None ->
        exists r,
          get_notifications DbRow db_branch true q = inr r
          /\ status_code r = 200
          /\ notifications r = mockNotifications
          /\ total (pagination r) = 3
          /\ has_more (pagination r) = false
          /\ limit (pagination r) = Some (parse_or (q_limit q) 50)
          /\ offset (pagination r) = Some (parse_or (q_offset q) 0)
          /\ unread_count r = 2)
  /\ notifications (mock_branch no_filter) = mockNotifications
  /\ total (pagination (mock_branch no_filter)) = 3
  /\ unread_count (mock_branch no_filter) = 2.
Proof.
  split; [|split; [|repeat split]].
  - intros DbRow db_branch q. exists (mock_branch q).
    split; [reflexivity|]. split; [reflexivity|]. split; [reflexivity|].
    split; [reflexivity|].
    cbn [mock_branch notifications].
    intros x H. apply js_slice_incl in H.
    eapply filteredNotifications_incl; exact H.
  - intros DbRow db_branch q H. exists (catch_fallback q).
    split; [cbn [get_notifications]; rewrite H; reflexivity|].
    repeat split.
Qed.

(** A query that filters on the type: one mock when the probe fails, all
    three when a query fails after the probe. *)
Lemma unavailable_store_answers_with_mocks_witness :
  (exists r,
     get_notifications unit (fun _ => None) false
       (mkQuery None (Some "overdue") None None None) = inr r
     /\ List.length (notifications r) = 1%nat)
  /\ (exists r,
        get_notifications unit (fun _ => None) true
          (mkQuery None (Some "overdue") None None None) = inr r
        /\ List.length (notifications r) = 3%nat).
Proof.
  destruct unavailable_store_answers_with_mocks as [A [B _]].
  split.
  - destruct (A unit (fun _ => None) (mkQuery None (Some "overdue") None None None))
      as [r [E [_ [N _]]]].
    exists r. split; [exact E|]. rewrite N. reflexivity.
  - destruct (B unit (fun _ => None) (mkQuery None (Some "overdue") None None None)
                eq_refl) as [r [E [_ [N _]]]].
    exists r. split; [exact E|]. rewrite N. reflexivity.
Defined.

End RouteProofs.

(* ------------------------------------------------------------------ *)
(** ** List lemmas for the relational reading of the queries *)

Module ListFacts.

Section Filter.
Context {A B : Type}.

Lemma filter_map_swap (f : A -> B) (Q : B -> bool) (l : list A) :
  filter Q (map f l) = map f (filter (fun x => Q (f x)) l).
Proof.
  induction l as [|a l IH]; simpl; [reflexivity|].
  destruct (Q (f a)); simpl; rewrite IH; reflexivity.
Qed.

Lemma filter_filter (P Q : A -> bool) (l : list A) :
  filter P (filter Q l) = filter (fun x => P x && Q x) l.
Proof.
  induction l as [|a l IH]; simpl; [reflexivity|].
  destruct (Q a); simpl; rewrite ?andb_true_r, ?andb_false_r;
    [destruct (P a); rewrite IH; reflexivity | exact IH].
Qed.

Lemma filter_ext_eq (P Q : A -> bool) (l : list A) :
  (forall x, P x = Q x) -> filter P l = filter Q l.
Proof.
  intros H. induction l as [|a l IH]; simpl; [reflexivity|].
  rewrite H, IH. reflexivity.
Qed.

Lemma filter_none (P : A -> bool) (l : list A) :
  (forall x, In x l -> P x = false) -> filter P l = [].
Proof.
  induction l as [|a l IH]; intros H; simpl; [reflexivity|].
  rewrite (H a (or_introl eq_refl)). apply IH. intros x Hx. apply H. right; exact Hx.
Qed.

Lemma filter_length_le (P : A -> bool) (l : list A) :
  (List.length (filter P l) <= List.length l)%nat.
Proof.
  induction l as [|a l IH]; simpl; [lia|]. destruct (P a); simpl; lia.
Qed.

Lemma filter_length_mono (P Q : A -> bool) (l : list A) :
  (forall x, P x = true -> Q x = true) ->
  (List.length (filter P l) <= List.length (filter Q l))%nat.
Proof.
  intros H. induction l as [|a l IH]; simpl; [lia|].
  destruct (P a) eqn:E.
  - rewrite (H a E). simpl. lia.
  - destruct (Q a); simpl; lia.
Qed.

Lemma existsb_false_filter (P : A -> bool) (l : list A) :
  existsb P l = false -> filter P l = [].
Proof.
  induction l as [|a l IH]; simpl; [reflexivity|].
  intros H. apply orb_false_iff in H. destruct H as [Ha Hl].
  rewrite Ha. apply IH; exact Hl.
Qed.

Lemma filter_nil_existsb (P : A -> bool) (l : list A) :
  filter P l = [] -> existsb P l = false.
Proof.
  induction l as [|a l IH]; simpl; [reflexivity|].
  destruct (P a); [discriminate|]. exact IH.
Qed.

Lemma filter_flat_map (g : A -> list B) (Q : B -> bool) (l : list A) :
  filter Q (flat_map g l) = flat_map (fun x => filter Q (g x)) l.
Proof.
  induction l as [|a l IH]; simpl; [reflexivity|].
  rewrite filter_app, IH. reflexivity.
Qed.

Lemma flat_map_filter_guard (g : A -> list B) (p : A -> bool) (l : list A) :
  flat_map (fun x => if p x then g x else []) l = flat_map g (filter p l).
Proof.
  induction l as [|a l IH]; simpl; [reflexivity|].
  destruct (p a); simpl; rewrite IH; reflexivity.
Qed.

End Filter.

(** A key that is unique in a table selects at most one row, and exactly
    the row that carries it. *)
Section Keys.
Context {A : Type} (key : A -> Z).

Lemma filter_key_absent (k : Z) (l : list A) :
  ~ In k (map key l) -> filter (fun y => key y =? k) l = [].
Proof.
  intros H. apply filter_none. intros x Hx.
  apply Z.eqb_neq. intros E. apply H. rewrite <- E. apply in_map; exact Hx.
Qed.

Lemma filter_key_le1 (k : Z) (l : list A) :
  NoDup (map key l) ->
  (List.length (filter (fun y => (key y =? k)%Z) l) <= 1)%nat.
Proof.
  induction l as [|a l IH]; simpl; intros H; [lia|].
  inversion H as [|? ? Hn Hd]; subst.
  destruct (key a =? k) eqn:E.
  - apply Z.eqb_eq in E. subst k. rewrite filter_key_absent by exact Hn. simpl; lia.
  - apply IH; exact Hd.
Qed.

Lemma filter_key_unique (x : A) (l : list A) :
  NoDup (map key l) -> In x l ->
  filter (fun y => key y =? key x) l = [x].
Proof.
  induction l as [|a l IH]; simpl; intros H Hin; [contradiction|].
  inversion H as [|? ? Hn Hd]; subst.
  destruct Hin as [->|Hin].
  - rewrite Z.eqb_refl. rewrite filter_key_absent by exact Hn. reflexivity.
  - destruct (key a =? key x) eqn:E.
    + apply Z.eqb_eq in E. exfalso. apply Hn. rewrite E. apply in_map; exact Hin.
    + apply IH; assumption.
Qed.

End Keys.

End ListFacts.

(* ------------------------------------------------------------------ *)
(** ** The evaluator: the call raises, the drivers write nothing *)

Module EvaluatorProofs.
Import Evaluator.

(** No [-] operator takes a [time] on the left and a
    [time with time zone] on the right. *)
Lemma no_minus_for_start_time_and_current_time :
  has_minus_operator (operand_type fs_start_time) (operand_type current_time) = false.
Proof. reflexivity. Qed.

Lemma call_raises (execute : Db -> Z -> list NotificationRow) (db : Db) (now : Z) :
  check_subtask_sla_notifications execute db now = Raised.
Proof.
  unfold check_subtask_sla_notifications.
  rewrite no_minus_for_start_time_and_current_time. reflexivity.
Qed.









Lemma pass_alone_caught (execute : Db -> Z -> list NotificationRow) (db : Db) (now : Z) :
  pass_alone execute db now = (Caught, []).
Proof. unfold pass_alone. rewrite call_raises. reflexivity. Qed.

Lemma reports_nothing (execute : Db -> Z -> list NotificationRow) (db : Db) (now : Z)
  (ty : string) (sub : Z) :
  reports execute db now ty sub = false.
Proof. unfold reports. rewrite call_raises. reflexivity. Qed.

End EvaluatorProofs.

(* ------------------------------------------------------------------ *)
(** ** The alert service: when each branch is taken *)

Module AlertServiceProofs.
Import AlertService.

Lemma minutesRemaining_spec (z : Zone) (now : Z) (s : Subtask) :
  60000 * minutesRemaining z now s <= dueTime z now s - now
  < 60000 * (minutesRemaining z now s + 1).
Proof.
  unfold minutesRemaining.
  pose proof (Z.div_mod (dueTime z now s - now) 60000 ltac:(lia)).
  pose proof (Z.mod_pos_bound (dueTime z now s - now) 60000 ltac:(lia)).
  lia.
Qed.

(** In a zone of constant offset the due instant is the start instant plus
    the budget. *)
Lemma dueTime_constant_zone (off now : Z) (s : Subtask) :
  dueTime (constant_zone off) now s
  = match started_at s with Some t => t | None => now end
    + sla_hours s * 3600000 + sla_minutes s * 60000.
Proof.
  unfold dueTime, setMinutes_plus, setHours_plus, UTC, LocalTime, constant_zone.
  cbn [offset_at_instant offset_at_local]. lia.
Qed.

(** The overdue branch is taken exactly when the due instant is past. *)
Lemma decide_overdue_iff (z : Zone) (now : Z) (s : Subtask) :
  (exists m, decide z now s = SendOverdue m) <-> dueTime z now s < now.
Proof.
  pose proof (minutesRemaining_spec z now s) as M. unfold decide. cbv zeta.
  destruct (minutesRemaining z now s <? 0) eqn:E.
  - apply Z.ltb_lt in E. split; [intros _; lia | intros _; eauto].
  - apply Z.ltb_ge in E. split; [|lia].
    intros [m H]. destruct (_ && _); discriminate.
Qed.

(** The warning branch is taken exactly when between one minute and less
    than sixteen minutes are left. *)
Lemma decide_warning_iff (z : Zone) (now : Z) (s : Subtask) :
  (exists m, decide z now s = SendWarning m)
  <-> 60000 <= dueTime z now s - now < 16 * 60000.
Proof.
  pose proof (minutesRemaining_spec z now s) as M. unfold decide. cbv zeta.
  destruct (minutesRemaining z now s <? 0) eqn:E.
  - apply Z.ltb_lt in E. split; [intros [m H]; discriminate | lia].
  - apply Z.ltb_ge in E.
    destruct (minutesRemaining z now s <=? 15) eqn:E1;
      destruct (minutesRemaining z now s >? 0) eqn:E2; cbn [andb];
      rewrite ?Z.leb_le, ?Z.leb_gt in E1; rewrite Z.gtb_ltb in E2;
      rewrite ?Z.ltb_lt, ?Z.ltb_ge in E2;
      (split; [intros [m H]; try discriminate; lia | intros H; try lia; eauto]).
Qed.

End AlertServiceProofs.

(* ------------------------------------------------------------------ *)
(** ** The evaluator against its description *)

Module SlaProofs.
Import Evaluator EvaluatorProofs.

(** The time of day of an instant, as a [TIME]. *)
Definition time_of_day (now : Z) : Z := now mod day.

Definition at_time (h m : Z) : Z := h * hour + m * minute.

(** The subtask of the examples: subtask 29 of task 16, "Check", scheduled
    at 16:00 with an SLA budget of 60 minutes. *)
Definition example_subtask : Subtask :=
  {| st_id := 29; st_task_id := 16; st_name := "Validate files";
     st_assigned_to := None; start_time := Some (at_time 16 0);
     auto_notify := Some true; st_status := "pending";
     st_sla_hours := 1; st_sla_minutes := 0 |}.

Definition example_task : Task :=
  {| t_id := 16; t_task_name := "Check"; t_assigned_to := Some "Sanjay Kumar";
     is_active := true |}.

Definition example_db : Db := mkDb [example_subtask] [example_task] [].

(** An executor that would return a warning row for the example. *)
Definition example_execute (db : Db) (now : Z) : list NotificationRow :=
  [mkNotificationRow "sla_warning" 29 16 (Some "Check") "Validate files"
     (Some "Sanjay Kumar") 14 "SLA Warning - 14 min remaining • need to start"].

(** The subtask of the examples as the alert service sees it, started at
    16:00 of the first day (in milliseconds). *)
Definition example_service_subtask : AlertService.Subtask :=
  AlertService.mkSubtask 29 "Validate files" 1 0 "pending" (Some (16 * 3600000)).



(** C2: no Overdue event for a unit past its deadline.  For an active
    unit with [auto_notify], pending or in progress, whose deadline
    [start_time + sla budget] is not later than the time of day of the
    pass, the call raises: the function reports no overdue row for the
    unit, and the pass ends in its [catch] block without any event. *)
Theorem overdue_unit_gets_no_event
  (execute : Db -> Z -> list NotificationRow) (db : Db) (now : Z)
  (fs : Subtask) (ft : Task) (st : Z) :
  In fs (subtasks db) ->
  In ft (tasks db) ->
  t_id ft = st_task_id fs ->
  is_active ft = true ->
  auto_notify fs = Some true ->
  st_status fs = "pending" \/ st_status fs = "in_progress" ->
  start_time fs = Some st ->
  st + (st_sla_hours fs * hour + st_sla_minutes fs * minute) - time_of_day now <= 0 ->
  check_subtask_sla_notifications execute db now = Raised
  /\ reports execute db now "sla_overdue" (st_id fs) = false
  /\ pass_alone execute db now = (Caught, []).
Proof.
  intros _ _ _ _ _ _ _ _.
  split; [apply call_raises|]. split; [apply reports_nothing | apply pass_alone_caught].
Qed.

(** The subtask scheduled at 16:00 with a budget of 60 minutes, at 17:20. *)
Lemma overdue_unit_gets_no_event_witness :
  reports example_execute example_db (at_time 17 20) "sla_overdue" 29 = false
  /\ pass_alone example_execute example_db (at_time 17 20) = (Caught, []).
Proof.
  destruct (overdue_unit_gets_no_event example_execute example_db (at_time 17 20)
              example_subtask example_task (at_time 16 0)
              (or_introl eq_refl) (or_introl eq_refl) eq_refl eq_refl eq_refl
              (or_introl eq_refl) eq_refl ltac:(vm_compute; discriminate))
    as [_ [A B]].
  split; [exact A | exact B].
Defined.

(** C3: no Warning event for a unit inside the warning window.  For an
    active unit with [auto_notify], pending or in progress, with between 0
    (excluded) and 15 minutes left to its deadline
    [start_time + sla budget], the call raises: the function reports no
    warning row for the unit, and the pass appends no event, in particular
    none with a detail "SLA Warning - 14 min remaining". *)
Theorem warning_unit_gets_no_event
  (execute : Db -> Z -> list NotificationRow) (db : Db) (now : Z)
  (fs : Subtask) (ft : Task) (st : Z) :
  In fs (subtasks db) ->
  In ft (tasks db) ->
  t_id ft = st_task_id fs ->
  is_active ft = true ->
  auto_notify fs = Some true ->
  st_status fs = "pending" \/ st_status fs = "in_progress" ->
  start_time fs = Some st ->
  0 < st + (st_sla_hours fs * hour + st_sla_minutes fs * minute) - time_of_day now
    <= 15 * minute ->
  reports execute db now "sla_warning" (st_id fs) = false
  /\ snd (pass_alone execute db now) = []
  /\ forall e, In e (snd (pass_alone execute db now)) ->
               Text.includes (ev_details e) "SLA Warning - 14 min remaining" = false.
Proof.
  intros _ _ _ _ _ _ _ _.
  split; [apply reports_nothing|]. rewrite pass_alone_caught.
  split; [reflexivity | intros e []].
Qed.

(** The subtask scheduled at 16:00 with a budget of 60 minutes, at 16:46. *)
Lemma warning_unit_gets_no_event_witness :
  reports example_execute example_db (at_time 16 46) "sla_warning" 29 = false
  /\ snd (pass_alone example_execute example_db (at_time 16 46)) = [].
Proof.
  destruct (warning_unit_gets_no_event example_execute example_db (at_time 16 46)
              example_subtask example_task (at_time 16 0)
              (or_introl eq_refl) (or_introl eq_refl) eq_refl eq_refl eq_refl
              (or_introl eq_refl) eq_refl
              ltac:(vm_compute; split; [reflexivity | discriminate]))
    as [A [B _]].
  split; [exact A | exact B].
Defined.

(** C10: the two evaluators disagree wherever the service reports.
    Whatever the time zone, the executor, the database and the instant of
    the call: a subtask past its due instant is reported overdue by
    [checkSubtaskSLA] and not by the SQL function, and a subtask with one
    to fifteen whole minutes left is warned about by [checkSubtaskSLA] and
    not by the SQL function, which raises. *)
Theorem service_reports_where_sql_function_raises
  (z : AlertService.Zone) (execute : Db -> Z -> list NotificationRow)
  (db : Db) (t : Z) (now : Z) (s : AlertService.Subtask) :
  AlertService.decide z now s <> AlertService.NoAlert ->
  (AlertService.dueTime z now s < now ->
     (exists m, AlertService.decide z now s = AlertService.SendOverdue m)
     /\ reports execute db t "sla_overdue" (AlertService.id s) = false)
  /\ (now <= AlertService.dueTime z now s ->
        (exists m, AlertService.decide z now s = AlertService.SendWarning m)
        /\ 60000 <= AlertService.dueTime z now s - now < 16 * 60000
        /\ reports execute db t "sla_warning" (AlertService.id s) = false).
Proof.
  intros H. split.
  - intros D. split; [|apply reports_nothing].
    apply AlertServiceProofs.decide_overdue_iff. exact D.
  - intros D.
    assert (W : exists m, AlertService.decide z now s = AlertService.SendWarning m).
    { destruct (AlertService.decide z now s) as [m|m|] eqn:E.
      - assert (X : AlertService.dueTime z now s < now)
          by (apply AlertServiceProofs.decide_overdue_iff; eauto).
        lia.
      - eauto.
      - contradiction. }
    split; [exact W|]. split; [|apply reports_nothing].
    apply AlertServiceProofs.decide_warning_iff. exact W.
Qed.

(** The subtask started at 16:00 with a budget of 60 minutes, at 17:20,
    in a zone five and a half hours ahead of UTC. *)
Lemma service_reports_where_sql_function_raises_witness :
  AlertService.decide (AlertService.constant_zone 19800000)
    (17 * 3600000 + 20 * 60000) example_service_subtask
  = AlertService.SendOverdue 20
  /\ reports example_execute example_db (at_time 17 20) "sla_overdue" 29 = false.
Proof.
  destruct (service_reports_where_sql_function_raises
              (AlertService.constant_zone 19800000) example_execute example_db
              (at_time 17 20) (17 * 3600000 + 20 * 60000) example_service_subtask
              ltac:(vm_compute; discriminate)) as [A _].
  destruct (A ltac:(vm_compute; reflexivity)) as [_ B].
  split; [reflexivity | exact B].
Defined.

End SlaProofs.

(* ================================================================== *)
(** * Further properties of the code *)

(* ------------------------------------------------------------------ *)
(** ** Numbers written into details are read back *)

From Stdlib Require DecimalPos.

Module DigitsProofs.
Import Text TextProofs.

Lemma digits_val_acc_pos (d : Decimal.uint) (acc : positive) :
  digits_val_acc (Z.pos acc) (NilEmpty.string_of_uint d)
  = Z.pos (Pos.of_uint_acc d acc).
Proof.
  revert acc; induction d; intros acc; cbn [NilEmpty.string_of_uint digits_val_acc Pos.of_uint_acc];
    [reflexivity | ..];
    match goal with
    | |- digits_val_acc (10 * Z.pos acc + digit_val ?c) _ = Z.pos (Pos.of_uint_acc _ ?a) =>
        replace (10 * Z.pos acc + digit_val c) with (Z.pos a)
          by (let v := eval vm_compute in (digit_val c) in
              change (digit_val c) with v; lia);
        apply IHd
    end.
Qed.

Lemma digits_val_uint (d : Decimal.uint) :
  digits_val (NilEmpty.string_of_uint d) = Z.of_N (Pos.of_uint d).
Proof.
  unfold digits_val.
  induction d; cbn [NilEmpty.string_of_uint digits_val_acc Pos.of_uint];
    [reflexivity | exact IHd | ..];
    match goal with
    | |- digits_val_acc (10 * 0 + digit_val ?c) _ = Z.of_N (N.pos (Pos.of_uint_acc _ ?a)) =>
        change (10 * 0 + digit_val c) with (Z.pos a); apply digits_val_acc_pos
    end.
Qed.

(** What [show_Z] prints for a number that is not negative. *)
Lemma show_Z_nonneg (n : Z) :
  0 <= n ->
  exists d, d <> Decimal.Nil
            /\ show_Z n = NilEmpty.string_of_uint d
            /\ Z.of_N (Pos.of_uint d) = n.
Proof.
  intros H. destruct n as [|p|p]; [| |lia].
  - exists (Decimal.D0 Decimal.Nil). repeat split. discriminate.
  - exists (Pos.to_uint p). split; [apply DecimalPos.Unsigned.to_uint_nonnil|].
    split.
    + unfold show_Z. cbn [Z.to_int NilZero.string_of_int NilZero.string_of_uint].
      pose proof (DecimalPos.Unsigned.to_uint_nonnil p) as N.
      destruct (Pos.to_uint p); [congruence | reflexivity ..].
    + rewrite DecimalPos.Unsigned.of_to. reflexivity.
Qed.

(** [parseInt] of the printed number is the number. *)
Lemma digits_val_show_Z (n : Z) : 0 <= n -> digits_val (show_Z n) = n.
Proof.
  intros H. destruct (show_Z_nonneg n H) as [d [_ [-> E]]].
  rewrite digits_val_uint. exact E.
Qed.

Lemma span_digits_uint (d : Decimal.uint) (rest : string) :
  span_digits rest = (EmptyString, rest) ->
  span_digits (NilEmpty.string_of_uint d ++ rest) = (NilEmpty.string_of_uint d, rest).
Proof.
  intros H. induction d; cbn [NilEmpty.string_of_uint append];
    [exact H | ..];
    (cbn [span_digits];
     match goal with
     | |- (if is_digit ?c then _ else _) = _ =>
         change (is_digit c) with true; cbv iota; rewrite IHd; reflexivity
     end).
Qed.

(** A printed number followed by text that starts with no digit: the
    digits are exactly the number. *)
Lemma span_digits_show_Z (n : Z) (rest : string) :
  0 <= n ->
  span_digits rest = (EmptyString, rest) ->
  span_digits (show_Z n ++ rest) = (show_Z n, rest).
Proof.
  intros H R. destruct (show_Z_nonneg n H) as [d [_ [-> _]]].
  apply span_digits_uint; exact R.
Qed.

Lemma show_Z_not_empty (n : Z) : 0 <= n -> String.eqb (show_Z n) "" = false.
Proof.
  intros H. destruct (show_Z_nonneg n H) as [d [N [-> _]]].
  destruct d; [congruence | reflexivity ..].
Qed.

Lemma find_first_skip {A} (m : matcher A) (c : ascii) (s : string) :
  m (String c s) = None -> find_first m (String c s) = find_first m s.
Proof. intros H. cbn [find_first]. rewrite H. reflexivity. Qed.

Lemma re_min_remaining_no_digit (c : ascii) (s : string) :
  is_digit c = false -> re_min_remaining (String c s) = None.
Proof. intros H. unfold re_min_remaining. cbn [span_digits]. rewrite H. reflexivity. Qed.

Lemma strip_prefix_app (lit rest : string) : strip_prefix lit (lit ++ rest) = Some rest.
Proof.
  induction lit as [|a l IH]; cbn [strip_prefix append]; [destruct rest; reflexivity|].
  rewrite Ascii.eqb_refl. exact IH.
Qed.


(** The countdown of a warning detail written by the server is found
    again by the client's pattern. *)
Lemma warning_detail_parsed (n : Z) (tail : string) :
  0 <= n ->
  find_first re_min_remaining ("SLA Warning - " ++ show_Z n ++ " min remaining" ++ tail)
  = Some (show_Z n).
Proof.
  intros H. set (rest := show_Z n ++ " min remaining" ++ tail).
  cbn [append].
  repeat (rewrite find_first_skip by (apply re_min_remaining_no_digit; reflexivity)).
  subst rest. apply find_first_head with (r := tail).
  unfold re_min_remaining.
  rewrite (span_digits_show_Z n (" min remaining" ++ tail) H eq_refl).
  rewrite (show_Z_not_empty n H).
  rewrite strip_prefix_app. reflexivity.
Qed.



End DigitsProofs.

(* ------------------------------------------------------------------ *)
(** ** From the activity log to the notification centre *)

Module Served.

(** The row [GET /] selects for an event of the activity log:
    [rn.action], [rn.details], [rn.timestamp as created_at] (here already
    as the client's millisecond instant), the priority CASE, and the read
    flag of [finops_notification_read_status]. *)
Definition row (e : Evaluator.Event) (created_ms : Z) (is_read : bool)
  : Client.DbNotification :=
  {| Client.task_id := Evaluator.ev_task_id e;
     Client.action := Some (Evaluator.ev_action e);
     Client.details := Some (Evaluator.ev_details e);
     Client.created_at := Some created_ms;
     Client.db_priority :=
       Some (Classifier.sql_priority
               (Classifier.mkRawEvent (Some (Evaluator.ev_action e))
                  (Some (Evaluator.ev_details e))));
     Client.db_read := is_read |}.

End Served.

Module ServedProofs.
Import Text TextProofs DigitsProofs Client ClientProofs.

Lemma toLowerCase_app (a b : string) :
  toLowerCase (a ++ b) = toLowerCase a ++ toLowerCase b.
Proof. induction a as [|c a IH]; cbn [toLowerCase append]; [|rewrite IH]; reflexivity. Qed.

Lemma toLowerCase_uint (d : Decimal.uint) :
  toLowerCase (NilEmpty.string_of_uint d) = NilEmpty.string_of_uint d.
Proof.
  induction d; cbn [NilEmpty.string_of_uint toLowerCase]; [reflexivity | ..];
    rewrite IHd; reflexivity.
Qed.

Lemma toLowerCase_show_Z (n : Z) : 0 <= n -> toLowerCase (show_Z n) = show_Z n.
Proof.
  intros H. destruct (show_Z_nonneg n H) as [d [_ [-> _]]]. apply toLowerCase_uint.
Qed.

(** A needle that starts with no digit is not found inside a number. *)
Lemma includes_uint_skip (x : string) (d : Decimal.uint) (rest : string) :
  (forall c s, is_digit c = true -> String.prefix x (String c s) = false) ->
  includes (NilEmpty.string_of_uint d ++ rest) x = includes rest x.
Proof.
  intros H. induction d; cbn [NilEmpty.string_of_uint append];
    [reflexivity | ..];
    (cbn [includes]; rewrite H by reflexivity; exact IHd).
Qed.

Lemma includes_show_Z_skip (x : string) (n : Z) (rest : string) :
  0 <= n ->
  (forall c s, is_digit c = true -> String.prefix x (String c s) = false) ->
  includes (show_Z n ++ rest) x = includes rest x.
Proof.
  intros Hn H. destruct (show_Z_nonneg n Hn) as [d [_ [-> _]]].
  apply includes_uint_skip; exact H.
Qed.

Lemma prefix_letter_digit (a : ascii) (x : string) (c : ascii) (s : string) :
  is_digit a = false -> is_digit c = true ->
  String.prefix (String a x) (String c s) = false.
Proof.
  intros Ha Hc. cbn [String.prefix].
  destruct (ascii_dec a c) as [->|_]; [congruence | reflexivity].
Qed.

(** The detail of a warning written by the server mentions neither
    "overdue" nor "Overdue by": it is typed as a warning. *)
Lemma warning_detail_not_overdue (n : Z) :
  0 <= n ->
  includes (toLowerCase ("SLA Warning - " ++ show_Z n ++ " min remaining • need to start"))
    "overdue" = false.
Proof.
  intros H. rewrite !toLowerCase_app, (toLowerCase_show_Z n H).
  set (tail := toLowerCase " min remaining • need to start").
  set (rest := show_Z n ++ tail).
  cbn [toLowerCase append]. cbn [includes]. cbn [String.prefix]. cbn.
  subst rest. rewrite includes_show_Z_skip; [reflexivity | exact H |].
  intros c s Hc. apply prefix_letter_digit; [reflexivity | exact Hc].
Qed.

Lemma append_nil_r (s : string) : s ++ "" = s.
Proof. induction s as [|c s IH]; cbn [append]; [|rewrite IH]; reflexivity. Qed.

Lemma prefix_app_same (a b : string) : String.prefix a (a ++ b) = true.
Proof.
  induction a as [|c a IH]; cbn [String.prefix append]; [destruct b; reflexivity|].
  destruct (ascii_dec c c) as [_|N]; [exact IH | congruence].
Qed.

Lemma replace_first_skip {A} (m : matcher A) (f : A -> string) (c : ascii) (s : string) :
  m (String c s) = None ->
  replace_first m f (String c s) = String c (replace_first m f s).
Proof. intros H. cbn [replace_first]. rewrite H. reflexivity. Qed.

Lemma re_min_remaining_tail_no_digit (c : ascii) (s : string) :
  is_digit c = false -> re_min_remaining_tail (String c s) = None.
Proof.
  intros H. unfold re_min_remaining_tail.
  rewrite (re_min_remaining_no_digit c s H). reflexivity.
Qed.

(** The rewrite of a warning detail written by the server replaces its
    count and keeps the rest. *)
Lemma warning_detail_rewritten (n c : Z) :
  0 <= n ->
  replace_first re_min_remaining_tail
    (fun g => show_Z c ++ " min remaining" ++ snd g)
    ("SLA Warning - " ++ show_Z n ++ " min remaining • need to start")
  = "SLA Warning - " ++ show_Z c ++ " min remaining • need to start".
Proof.
  intros H.
  change (show_Z n ++ " min remaining • need to start")
    with (show_Z n ++ " min remaining" ++ " • need to start").
  set (rest := show_Z n ++ " min remaining" ++ " • need to start").
  cbn [append].
  repeat (rewrite replace_first_skip
            by (apply re_min_remaining_tail_no_digit; reflexivity)).
  subst rest.
  rewrite (replace_first_head re_min_remaining_tail _ _
             (show_Z n, " • need to start") "").
  - cbn [snd]. rewrite append_nil_r. reflexivity.
  - unfold re_min_remaining_tail, re_min_remaining.
    rewrite (span_digits_show_Z n (" min remaining" ++ " • need to start") H eq_refl).
    rewrite (show_Z_not_empty n H), strip_prefix_app. reflexivity.
Qed.

Lemma overdue_step_not_expired (t : option Z) (n : DbNotification) :
  isExpiredSLA (overdue_step t n (initial_live n)) = false.
Proof.
  unfold overdue_step.
  destruct (overdueMinutes (initial_live n)); [|reflexivity].
  destruct t; [|reflexivity].
  destruct (created_at n); [|reflexivity].
  destruct (details n); [|reflexivity].
  destruct (_ && _); reflexivity.
Qed.



Lemma overdue_type_critical_priority (l : Live) (n : DbNotification) :
  isExpiredSLA l = false ->
  notificationType l n = sla_overdue ->
  Classifier.sql_priority (Classifier.mkRawEvent (action n) (details n)) = critical.
Proof.
  intros He. unfold notificationType, Classifier.sql_priority, Classifier.like.
  rewrite He. cbn [Classifier.action Classifier.details].
  destruct (is_str (action n) "delay_reported"); [reflexivity|].
  destruct (is_str (action n) "overdue_notification_sent"); [reflexivity|].
  destruct (includes_ci_opt (details n) "overdue"); [reflexivity|].
  cbn [orb andb]. rewrite andb_false_r. intros H.
  destruct (is_str (action n) "sla_alert" || is_str (action n) "sla_warning"
            || includes_opt (details n) "starting in"
            || includes_opt (details n) "sla warning"
            || includes_opt (details n) "min remaining"); [discriminate|].
  destruct (is_str (action n) "escalation_required"); [discriminate|].
  destruct (_ || _); discriminate.
Qed.

(** X3: whatever the event and the read time, a row that the notification
    centre shows with type [sla_overdue] is shown with priority
    [critical]: either the warning has expired, or the server's priority
    CASE already answered critical for it. *)
Theorem served_overdue_is_critical
  (e : Evaluator.Event) (created_ms : Z) (is_read : bool) (currentTime : option Z) :
  type (transformDbNotification currentTime (Served.row e created_ms is_read))
    = sla_overdue ->
  priority (transformDbNotification currentTime (Served.row e created_ms is_read))
    = critical.
Proof.
  set (n := Served.row e created_ms is_read).
  unfold transformDbNotification. cbv zeta. cbn [type priority].
  destruct (isExpiredSLA (live currentTime n)) eqn:X;
    [intros _; rewrite orb_true_r; reflexivity|].
  intros H. apply (overdue_type_critical_priority _ n X) in H.
  destruct (truthy _ || false); [reflexivity|].
  change (db_priority n)
    with (Some (Classifier.sql_priority (Classifier.mkRawEvent (action n) (details n)))).
  exact H.
Qed.

Lemma served_overdue_is_critical_witness :
  priority (transformDbNotification (Some 5000)
              (Served.row (Evaluator.mkEvent "status_changed" 16 (Some 29) "System"
                             "Status automatically changed to overdue due to SLA breach"
                             1000) 1 false))
  = critical.
Proof.
  apply (served_overdue_is_critical
           (Evaluator.mkEvent "status_changed" 16 (Some 29) "System"
              "Status automatically changed to overdue due to SLA breach" 1000)
           1 false (Some 5000)).
  reflexivity.
Defined.

End ServedProofs.

(* ------------------------------------------------------------------ *)
(** ** The countdown over time *)

Module CountdownProofs.
Import Text TextProofs Client ClientProofs.

Lemma ceil_minutes_mono (a b : Z) : a <= b -> ceil_minutes a <= ceil_minutes b.
Proof.
  intros H. pose proof (ceil_minutes_spec a). pose proof (ceil_minutes_spec b). lia.
Qed.

Lemma floor_minutes_mono (a b : Z) : a <= b -> floor_minutes a <= floor_minutes b.
Proof.
  intros H. pose proof (floor_minutes_spec a). pose proof (floor_minutes_spec b). lia.
Qed.

(** What the centre shows of a warning record, by the sign of the exact
    remaining time. *)
Lemma warning_display (n : DbNotification) (d ds : string) (t0 now : Z) :
  details n = Some d ->
  created_at n = Some t0 ->
  includes d "SLA Warning - " = true ->
  find_first re_min_remaining d = Some ds ->
  let exact := digits_val ds * 60000 - (now - t0) in
  let out := transformDbNotification (Some now) n in
  (0 < exact ->
     sla_remaining out = Some (show_Z (ceil_minutes exact) ++ " min remaining"))
  /\ (exact <= 0 ->
        type out = sla_overdue
        /\ sla_remaining out
           = Some ("Overdue by " ++ show_Z (floor_minutes (- exact)) ++ " min")).
Proof.
  intros Hd Hc Hw Hm exact out.
  assert (Hl : live (Some now) n
               = warning_step (Some now) n (overdue_step (Some now) n (initial_live n)))
    by reflexivity.
  rewrite (warning_step_eq n _ d ds t0 now Hd Hc Hw Hm) in Hl.
  cbv zeta in Hl. fold exact in Hl.
  subst out. unfold transformDbNotification. cbv zeta. rewrite Hl.
  split; intros H.
  - destruct (exact <=? 0) eqn:E; [apply Z.leb_le in E; lia|].
    cbn [sla_remaining realTimeSlaRemaining].
    pose proof (ceil_minutes_spec exact). rewrite Z.max_r by lia. reflexivity.
  - destruct (exact <=? 0) eqn:E; [|apply Z.leb_gt in E; lia].
    cbn [type sla_remaining realTimeSlaRemaining isExpiredSLA notificationType].
    rewrite Z.abs_neq by lia. split; reflexivity.
Qed.

(** X4: the countdown of a warning record never goes up and never comes
    back.  For two read times [now <= now'] of the same record: while it
    still counts down at [now'] it counted down at [now], with a count at
    least as large, and the count is at least 1; once it is shown as
    overdue at [now] it is shown as overdue at [now'], with a count at
    least as large. *)
Theorem warning_countdown_monotone
  (n : DbNotification) (d ds : string) (t0 now now' : Z) :
  details n = Some d ->
  created_at n = Some t0 ->
  includes d "SLA Warning - " = true ->
  find_first re_min_remaining d = Some ds ->
  now <= now' ->
  let exact := digits_val ds * 60000 - (now - t0) in
  let exact' := digits_val ds * 60000 - (now' - t0) in
  let out := transformDbNotification (Some now) n in
  let out' := transformDbNotification (Some now') n in
  (0 < exact' ->
     sla_remaining out = Some (show_Z (ceil_minutes exact) ++ " min remaining")
     /\ sla_remaining out' = Some (show_Z (ceil_minutes exact') ++ " min remaining")
     /\ 1 <= ceil_minutes exact' <= ceil_minutes exact)
  /\ (exact <= 0 ->
        type out = sla_overdue /\ type out' = sla_overdue
        /\ sla_remaining out
           = Some ("Overdue by " ++ show_Z (floor_minutes (- exact)) ++ " min")
        /\ sla_remaining out'
           = Some ("Overdue by " ++ show_Z (floor_minutes (- exact')) ++ " min")
        /\ 0 <= floor_minutes (- exact) <= floor_minutes (- exact')).
Proof.
  intros Hd Hc Hw Hm Hle exact exact' out out'.
  pose proof (warning_display n d ds t0 now Hd Hc Hw Hm) as [A1 A2].
  pose proof (warning_display n d ds t0 now' Hd Hc Hw Hm) as [B1 B2].
  cbv zeta in A1, A2, B1, B2. fold exact in A1, A2. fold exact' in B1, B2.
  fold out in A1, A2. fold out' in B1, B2.
  assert (exact' <= exact) by (unfold exact, exact'; lia).
  split; intros H0.
  - split; [apply A1; lia|]. split; [apply B1; exact H0|].
    pose proof (ceil_minutes_spec exact').
    pose proof (ceil_minutes_mono exact' exact ltac:(lia)). lia.
  - destruct (A2 H0) as [T1 S1]. destruct (B2 ltac:(lia)) as [T2 S2].
    repeat split; try assumption.
    + pose proof (floor_minutes_spec (- exact)). lia.
    + apply floor_minutes_mono. lia.
Qed.

Lemma warning_countdown_monotone_witness :
  sla_remaining (transformDbNotification (Some (1000 + 2 * 60000)) (warning_15 1000))
    = Some "13 min remaining"
  /\ sla_remaining (transformDbNotification (Some (1000 + 7 * 60000)) (warning_15 1000))
     = Some "8 min remaining".
Proof.
  pose proof (warning_countdown_monotone (warning_15 1000)
                "SLA Warning - 15 min remaining • need to start" "15"
                1000 (1000 + 2 * 60000) (1000 + 7 * 60000)
                eq_refl eq_refl eq_refl eq_refl ltac:(vm_compute; discriminate)) as H.
  cbv zeta in H. destruct H as [H _].
  destruct (H ltac:(vm_compute; reflexivity)) as [H1 [H2 _]].
  split; [exact H1 | exact H2].
Defined.

(** X5: an overdue record whose stored count is zero is never recomputed:
    the guard of the overdue block takes the count [0] for a missing one.
    Whatever the read time, the record keeps its stored text and the
    count [0], and shows no SLA status line. *)
Theorem zero_overdue_count_is_frozen
  (n : DbNotification) (d ds : string) (currentTime : option Z) :
  details n = Some d ->
  overdueMatch (Some d) = Some ds ->
  digits_val ds = 0 ->
  includes d "SLA Warning - " = false ->
  let out := transformDbNotification currentTime n in
  message out = d /\ overdue_minutes out = Some 0 /\ sla_remaining out = None.
Proof.
  intros Hd Hm Hz Hw out.
  assert (Hi : initial_live n
               = {| realTimeDetails := Some d; realTimeSlaRemaining := None;
                    isExpiredSLA := false; overdueMinutesFromSLA := 0;
                    overdueMinutes := Some 0 |}).
  { unfold initial_live. rewrite Hd, Hm. cbn [option_map]. rewrite Hz. reflexivity. }
  assert (Hl : live currentTime n = initial_live n).
  { unfold live.
    assert (O : overdue_step currentTime n (initial_live n) = initial_live n).
    { unfold overdue_step. rewrite Hi. cbn [overdueMinutes].
      destruct currentTime; [|reflexivity].
      destruct (created_at n); [|reflexivity]. rewrite Hd. reflexivity. }
    rewrite O. unfold warning_step.
    destruct currentTime; [|reflexivity]. rewrite Hd, Hw. reflexivity. }
  subst out. unfold transformDbNotification. cbv zeta. rewrite Hl, Hi.
  repeat split.
Qed.

Lemma zero_overdue_count_is_frozen_witness :
  message (transformDbNotification (Some (1000 + 90 * 60000))
             (mkDbNotification 16 (Some "overdue_notification_sent")
                (Some "Overdue by 0 min • 0 min ago") (Some 1000) (Some critical) false))
  = "Overdue by 0 min • 0 min ago".
Proof.
  exact (proj1 (zero_overdue_count_is_frozen
                  (mkDbNotification 16 (Some "overdue_notification_sent")
                     (Some "Overdue by 0 min • 0 min ago") (Some 1000)
                     (Some critical) false)
                  "Overdue by 0 min • 0 min ago" "0" (Some (1000 + 90 * 60000))
                  eq_refl eq_refl eq_refl eq_refl)).
Defined.

End CountdownProofs.

(* ------------------------------------------------------------------ *)
(** ** [FinOpsAlertService]: a pass over the subtasks of a task *)

Module AlertPasses.
Import AlertService.

(** [subtask.status === 'in_progress' || subtask.status === 'pending']. *)
Definition is_open (s : Subtask) : bool :=
  String.eqb (status s) "in_progress" || String.eqb (status s) "pending".

(** [processTaskAlerts]: the subtasks of the task in order, each open one
    through [checkSubtaskSLA]; the alert log is threaded through, and the
    result carries the subtasks as [updateSubtaskStatus] leaves them.  One
    instant stands for the clock readings of the pass. *)
Fixpoint processTaskAlerts (z : Zone) (now task : Z) (subs : list Subtask)
  (alerts : list Alert)
  : list Alert * list Subtask :=
  match subs with
  | [] => (alerts, [])
  | s :: r =>
      let (a1, s1) := if is_open s then checkSubtaskSLA z now task s alerts
                      else (alerts, s) in
      let (a2, r2) := processTaskAlerts z now task r a1 in
      (a2, s1 :: r2)
  end.

(** The alert log is deduplicated at [now]: per subtask, at most one
    warning alert in the last hour and at most one overdue alert in the
    last thirty minutes. *)
Definition alerts_deduplicated (alerts : list Alert) (now : Z) : Prop :=
  forall task sub,
    (List.length (existingAlert alerts task sub "sla_warning" 3600000 now) <= 1)%nat
    /\ (List.length (existingAlert alerts task sub "sla_overdue" 1800000 now) <= 1)%nat.

End AlertPasses.

Module AlertPassesProofs.
Import AlertService AlertPasses AlertServiceProofs ListFacts.

Lemma existingAlert_app (a b : list Alert) (task sub : Z) (ty : string) (lb now : Z) :
  existingAlert (a ++ b) task sub ty lb now
  = (existingAlert a task sub ty lb now ++ existingAlert b task sub ty lb now)%list.
Proof. unfold existingAlert. apply filter_app. Qed.

Lemma existingAlert_later (a : list Alert) (task sub : Z) (ty : string) (lb now now' : Z) :
  now <= now' ->
  (List.length (existingAlert a task sub ty lb now')
   <= List.length (existingAlert a task sub ty lb now))%nat.
Proof.
  intros H. unfold existingAlert. apply filter_length_mono. intros x.
  rewrite !andb_true_iff. intros [K T]. split; [exact K|].
  rewrite Z.gtb_ltb in *. apply Z.ltb_lt. apply Z.ltb_lt in T. lia.
Qed.

(** One conditional append keeps a count at most one: the alert is
    appended only when the log holds none of its key inside its lookback. *)
Lemma send_keeps_count (alerts : list Alert) (now task sub : Z) (ty rc : string)
  (m lb : Z) (task' sub' : Z) (ty' : string) (lb' : Z) :
  (ty' = ty -> lb' = lb) ->
  (List.length (existingAlert alerts task' sub' ty' lb' now) <= 1)%nat ->
  (List.length
     (existingAlert
        (match existingAlert alerts task sub ty lb now with
         | _ :: _ => alerts
         | [] => alerts ++ [mkAlert task sub ty rc m now]
         end) task' sub' ty' lb' now) <= 1)%nat.
Proof.
  intros Hlb H.
  destruct (existingAlert alerts task sub ty lb now) as [|x l] eqn:E; [|exact H].
  rewrite existingAlert_app, length_app.
  unfold existingAlert at 2. cbn [filter al_task_id al_subtask_id alert_type al_created_at].
  destruct (task =? task') eqn:E1; [|cbn; lia].
  destruct (sub =? sub') eqn:E2; [|cbn; lia].
  destruct (String.eqb ty ty') eqn:E3; [|cbn; lia].
  apply Z.eqb_eq in E1, E2. apply String.eqb_eq in E3. subst task' sub' ty'.
  rewrite (Hlb eq_refl) in *. rewrite E. cbn [andb].
  destruct (now >? now - lb); cbn; lia.
Qed.

Lemma checkSubtaskSLA_deduplicated (z : Zone) (now task : Z) (s : Subtask)
  (alerts : list Alert) :
  alerts_deduplicated alerts now ->
  alerts_deduplicated (fst (checkSubtaskSLA z now task s alerts)) now.
Proof.
  intros D task' sub'. destruct (D task' sub') as [W O].
  unfold checkSubtaskSLA.
  destruct (decide z now s) as [m|m|]; cbn [fst];
    unfold sendSLAOverdueAlert, sendSLAWarningAlert; try (split; assumption).
  - split; apply send_keeps_count; try assumption; intros H; try discriminate; reflexivity.
  - split; apply send_keeps_count; try assumption; intros H; try discriminate; reflexivity.
Qed.

Lemma processTaskAlerts_deduplicated (z : Zone) (now task : Z) (subs : list Subtask)
  (alerts : list Alert) :
  alerts_deduplicated alerts now ->
  alerts_deduplicated (fst (processTaskAlerts z now task subs alerts)) now.
Proof.
  revert alerts; induction subs as [|s r IH]; intros alerts D; [exact D|].
  cbn [processTaskAlerts].
  destruct (is_open s).
  - pose proof (checkSubtaskSLA_deduplicated z now task s alerts D) as D1.
    destruct (checkSubtaskSLA z now task s alerts) as [a1 s1]. cbn [fst] in D1.
    specialize (IH a1 D1). destruct (processTaskAlerts z now task r a1). exact IH.
  - specialize (IH alerts D). destruct (processTaskAlerts z now task r alerts). exact IH.
Qed.

(** X12: the alert service keeps its alert log deduplicated.  If, per
    subtask, the log holds at most one warning alert of the last hour and
    at most one overdue alert of the last thirty minutes, so it does after
    a pass over the subtasks of a task, at the instant of the pass and at
    any later one, in every time zone. *)
Theorem alert_pass_keeps_log_deduplicated
  (z : Zone) (now now' task : Z) (subs : list Subtask) (alerts : list Alert) :
  alerts_deduplicated alerts now ->
  now <= now' ->
  alerts_deduplicated (fst (processTaskAlerts z now task subs alerts)) now'.
Proof.
  intros D H task' sub'.
  destruct (processTaskAlerts_deduplicated z now task subs alerts D task' sub') as [W O].
  split.
  - pose proof (existingAlert_later (fst (processTaskAlerts z now task subs alerts))
                  task' sub' "sla_warning" 3600000 now now' H). lia.
  - pose proof (existingAlert_later (fst (processTaskAlerts z now task subs alerts))
                  task' sub' "sla_overdue" 1800000 now now' H). lia.
Qed.

Lemma alert_pass_keeps_log_deduplicated_witness :
  alerts_deduplicated
    (fst (processTaskAlerts (constant_zone 19800000) 1000000 16
            [mkSubtask 29 "Validate files" 0 10 "pending" None;
             mkSubtask 29 "Validate files" 0 10 "pending" None] []))
    1000000.
Proof.
  apply (alert_pass_keeps_log_deduplicated (constant_zone 19800000) 1000000 1000000 16).
  - intros task sub. split; apply le_S, le_n.
  - apply Z.le_refl.
Defined.

(** X13: a subtask that has not started, in a time zone whose offset from
    UTC never changes.  Its due instant is the current instant plus its
    budget, so (for a budget that is not negative) it is never overdue,
    and it is warned about exactly when its whole budget is between 1 and
    15 minutes - at every pass, whatever the time. *)
Theorem unstarted_subtask_decision (off now : Z) (s : Subtask) :
  started_at s = None ->
  0 <= sla_hours s -> 0 <= sla_minutes s ->
  (forall m, decide (constant_zone off) now s <> SendOverdue m)
  /\ ((exists m, decide (constant_zone off) now s = SendWarning m)
      <-> 1 <= 60 * sla_hours s + sla_minutes s <= 15)
  /\ (1 <= 60 * sla_hours s + sla_minutes s <= 15 ->
      decide (constant_zone off) now s
      = SendWarning (60 * sla_hours s + sla_minutes s)).
Proof.
  intros Hs Hh Hm.
  assert (M : minutesRemaining (constant_zone off) now s
              = 60 * sla_hours s + sla_minutes s).
  { unfold minutesRemaining. rewrite dueTime_constant_zone, Hs.
    replace (now + sla_hours s * 3600000 + sla_minutes s * 60000 - now)
      with ((60 * sla_hours s + sla_minutes s) * 60000) by lia.
    apply Z.div_mul. lia. }
  unfold decide. cbv zeta. rewrite M.
  destruct (60 * sla_hours s + sla_minutes s <? 0) eqn:E;
    [apply Z.ltb_lt in E; lia|].
  split; [|split].
  - intros m. destruct (_ && _); discriminate.
  - destruct (60 * sla_hours s + sla_minutes s <=? 15) eqn:E1;
      destruct (60 * sla_hours s + sla_minutes s >? 0) eqn:E2; cbn [andb];
      rewrite ?Z.leb_le, ?Z.leb_gt in E1; rewrite Z.gtb_ltb in E2;
      rewrite ?Z.ltb_lt, ?Z.ltb_ge in E2;
      (split; [intros [m H]; try discriminate; lia | intros H; try lia; eauto]).
  - intros H.
    replace (60 * sla_hours s + sla_minutes s <=? 15) with true
      by (symmetry; apply Z.leb_le; lia).
    replace (60 * sla_hours s + sla_minutes s >? 0) with true
      by (symmetry; rewrite Z.gtb_ltb; apply Z.ltb_lt; lia).
    reflexivity.
Qed.

Lemma unstarted_subtask_decision_witness :
  decide (constant_zone 19800000) 1000000
    (mkSubtask 29 "Validate files" 0 10 "pending" None)
  = SendWarning 10.
Proof.
  apply (unstarted_subtask_decision 19800000 1000000
           (mkSubtask 29 "Validate files" 0 10 "pending" None)
           eq_refl ltac:(vm_compute; discriminate) ltac:(vm_compute; discriminate)).
  vm_compute. split; discriminate.
Defined.

(** X14: the minutes an alert carries, in every time zone, with the due
    instant that [setHours] and [setMinutes] yield there.  An overdue
    alert carries the time past the due instant in minutes, rounded up,
    which is at least 1; a warning alert carries the time left in minutes,
    rounded down, between 1 and 15; and no alert is sent exactly when the
    time left is between zero and less than one minute, or sixteen minutes
    or more. *)
Theorem alert_minutes (z : Zone) (now : Z) (s : Subtask) :
  (forall m, decide z now s = SendOverdue m ->
             1 <= m /\ 60000 * (m - 1) < now - dueTime z now s <= 60000 * m)
  /\ (forall m, decide z now s = SendWarning m ->
                1 <= m <= 15
                /\ 60000 * m <= dueTime z now s - now < 60000 * (m + 1))
  /\ (decide z now s = NoAlert <->
      0 <= dueTime z now s - now < 60000 \/ 16 * 60000 <= dueTime z now s - now).
Proof.
  pose proof (minutesRemaining_spec z now s) as M. unfold decide. cbv zeta.
  destruct (minutesRemaining z now s <? 0) eqn:E.
  - apply Z.ltb_lt in E. split; [|split].
    + intros m H. inversion H; subst. lia.
    + intros m H. discriminate.
    + split; [discriminate | lia].
  - apply Z.ltb_ge in E.
    destruct (minutesRemaining z now s <=? 15) eqn:E1;
      destruct (minutesRemaining z now s >? 0) eqn:E2; cbn [andb];
      rewrite ?Z.leb_le, ?Z.leb_gt in E1; rewrite Z.gtb_ltb in E2;
      rewrite ?Z.ltb_lt, ?Z.ltb_ge in E2;
      (split; [intros m H; try discriminate
              | split; [intros m H; try discriminate; try (inversion H; subst; lia)
                       | split; [intros H; try discriminate; lia
                                | intros H; try reflexivity; lia]]]).
Qed.





End AlertPassesProofs.

(* ------------------------------------------------------------------ *)
(** ** The mock branch of [GET /]: filters and pages *)

Module RoutePagesProofs.
Import Text Route RouteProofs.

Lemma js_slice_window {A} (l : list A) (o n : Z) :
  0 <= o -> 0 <= n ->
  js_slice l (Some o) (Some (o + n)) = firstn (Z.to_nat n) (skipn (Z.to_nat o) l).
Proof.
  intros Ho Hn. unfold js_slice, relative_index.
  destruct (o <? 0) eqn:E1; [apply Z.ltb_lt in E1; lia|].
  destruct (o + n <? 0) eqn:E2; [apply Z.ltb_lt in E2; lia|].
  set (len := Z.of_nat (List.length l)).
  assert (L : List.length l = Z.to_nat len) by (unfold len; lia).
  destruct (Z.le_gt_cases len o) as [Hge|Hlt].
  - rewrite Z.min_r by lia. rewrite !skipn_all2 by lia.
    rewrite !firstn_nil. reflexivity.
  - rewrite (Z.min_l o len) by lia.
    destruct (Z.le_gt_cases (o + n) len) as [H1|H1].
    + rewrite Z.min_l by lia. f_equal. lia.
    + rewrite Z.min_r by lia.
      rewrite !firstn_all2; [reflexivity | |]; rewrite length_skipn; lia.
Qed.

(** X16: a page of the mock branch.  For an offset and a limit that parse to
    numbers that are not negative, the answer holds the [limit] entries
    that follow the first [offset] entries of the filtered mocks - at most
    [limit] of them -, [total] counts all filtered mocks, [has_more] tells
    whether entries remain after the page, and without [has_more] the page
    runs to the end of the filtered mocks. *)
Theorem mock_page (q : Query) (o n : Z) :
  offsetNum q = Some o -> limitNum q = Some n ->
  0 <= o -> 0 <= n ->
  let r := mock_branch q in
  let fl := filteredNotifications q in
  notifications r = firstn (Z.to_nat n) (skipn (Z.to_nat o) fl)
  /\ (List.length (notifications r) <= Z.to_nat n)%nat
  /\ total (pagination r) = Z.of_nat (List.length fl)
  /\ (has_more (pagination r) = true <-> o + n < Z.of_nat (List.length fl))
  /\ (has_more (pagination r) = false -> notifications r = skipn (Z.to_nat o) fl).
Proof.
  intros Ho Hn Po Pn r fl.
  assert (N : notifications r = firstn (Z.to_nat n) (skipn (Z.to_nat o) fl)).
  { subst r fl. unfold mock_branch. cbn [notifications]. rewrite Ho, Hn.
    cbn [nan_add]. apply js_slice_window; assumption. }
  assert (H : has_more (pagination r) = (o + n <? Z.of_nat (List.length fl))).
  { subst r fl. unfold mock_branch. cbn [pagination has_more]. rewrite Ho, Hn.
    reflexivity. }
  split; [exact N|]. split; [rewrite N; apply firstn_le_length|].
  split; [reflexivity|]. split.
  - rewrite H. apply Z.ltb_lt.
  - rewrite H, N. intros G. apply Z.ltb_ge in G.
    apply firstn_all2. rewrite length_skipn. lia.
Qed.

Lemma mock_page_witness :
  List.length (notifications (mock_branch (mkQuery None None None (Some "2") (Some "1"))))
  = 2%nat
  /\ has_more (pagination (mock_branch (mkQuery None None None (Some "2") (Some "1"))))
     = false.
Proof.
  pose proof (mock_page (mkQuery None None None (Some "2") (Some "1")) 1 2
                eq_refl eq_refl ltac:(vm_compute; discriminate)
                ltac:(vm_compute; discriminate)) as H.
  cbv zeta in H. destruct H as [N _].
  split; [rewrite N; reflexivity | reflexivity].
Defined.

(** X17: a limit that is no number.  When [limit] does not start with a
    number ([parseInt] gives [NaN]), the mock branch answers an empty page
    without [has_more], whatever the offset, while [total] still counts
    the filtered mocks. *)
Theorem mock_page_without_limit (q : Query) (s : string) :
  q_limit q = Some s ->
  parseInt s = None ->
  notifications (mock_branch q) = []
  /\ has_more (pagination (mock_branch q)) = false
  /\ limit (pagination (mock_branch q)) = None
  /\ total (pagination (mock_branch q))
     = Z.of_nat (List.length (filteredNotifications q)).
Proof.
  intros Hq Hp.
  assert (L : limitNum q = None) by (unfold limitNum; rewrite Hq; exact Hp).
  unfold mock_branch. cbn [notifications pagination has_more limit total].
  rewrite L. repeat split.
  - assert (S : nan_add (offsetNum q) None = None) by (destruct (offsetNum q); reflexivity).
    rewrite S. unfold js_slice. cbn [relative_index].
    set (a := relative_index _ (offsetNum q)).
    assert (0 <= a).
    { subst a. unfold relative_index. destruct (offsetNum q) as [k|]; [|lia].
      destruct (k <? 0) eqn:E; [lia|]. apply Z.ltb_ge in E. lia. }
    replace (Z.to_nat (0 - a)) with 0%nat by lia. reflexivity.
  - destruct (offsetNum q); reflexivity.
Qed.

Lemma mock_page_without_limit_witness :
  notifications (mock_branch (mkQuery None None None (Some "ten") None)) = [].
Proof.
  exact (proj1 (mock_page_without_limit (mkQuery None None None (Some "ten") None)
                  "ten" eq_refl eq_refl)).
Defined.

Lemma In_filter_if {A} (c : bool) (f : A -> bool) (l : list A) (x : A) :
  In x (if c then filter f l else l) <-> In x l /\ (c = true -> f x = true).
Proof.
  destruct c.
  - rewrite filter_In. split; [intros [H1 H2]; auto | intros [H1 H2]; auto].
  - split; [intros H; split; [exact H | discriminate] | intros [H _]; exact H].
Qed.

(** X18: the filters of the mock branch.  A mock notification passes exactly
    when it passes each filter the query gives: a non-empty [user_id] that
    parses to the mock's user, a non-empty [type] equal to the mock's
    type, and a [read] parameter - present, even empty - that says "true"
    exactly when the mock is read. *)
Theorem mock_filters (q : Query) (m : MockNotification) :
  In m (filteredNotifications q) <->
  In m mockNotifications
  /\ (truthy_str (q_user_id q) = true ->
      exists u, q_user_id q = Some u /\ parseInt u = Some (user_id m))
  /\ (truthy_str (q_type q) = true -> q_type q = Some (type m))
  /\ (forall r, q_read q = Some r -> read m = String.eqb r "true").
Proof.
  unfold filteredNotifications.
  set (fu := fun n : MockNotification =>
               match q_user_id q with
               | Some u => match parseInt u with
                           | Some k => user_id n =? k
                           | None => false
                           end
               | None => false
               end).
  set (ft := fun n : MockNotification => is_str (q_type q) (type n)).
  assert (FU : fu m = true <->
               exists u, q_user_id q = Some u /\ parseInt u = Some (user_id m)).
  { subst fu. cbv beta. destruct (q_user_id q) as [u|].
    - destruct (parseInt u) as [k|] eqn:P.
      + rewrite Z.eqb_eq. split.
        * intros E. exists u. split; [reflexivity | rewrite P, E; reflexivity].
        * intros [u' [E1 E2]]. inversion E1; subst u'. congruence.
      + split; [discriminate|]. intros [u' [E1 E2]]. inversion E1; subst u'.
        congruence.
    - split; [discriminate|]. intros [u' [E1 _]]. discriminate. }
  assert (FT : ft m = true <-> q_type q = Some (type m)).
  { subst ft. cbv beta. unfold is_str. destruct (q_type q) as [t|].
    - rewrite String.eqb_eq. split; [intros ->; reflexivity | intros E; congruence].
    - split; discriminate. }
  assert (R : forall l,
            In m (match q_read q with
                  | Some r => filter (fun n => Bool.eqb (read n) (String.eqb r "true")) l
                  | None => l
                  end)
            <-> In m l /\ (forall r, q_read q = Some r -> read m = String.eqb r "true")).
  { intros l. destruct (q_read q) as [r|].
    - rewrite filter_In, Bool.eqb_true_iff. split.
      + intros [H1 H2]. split; [exact H1|]. intros r0 Hr. inversion Hr; subst. exact H2.
      + intros [H1 H2]. split; [exact H1 | apply H2; reflexivity].
    - split; [intros H; split; [exact H | intros r Hr; discriminate] | intros [H _]; exact H]. }
  rewrite R, !In_filter_if, FU, FT. tauto.
Qed.

End RoutePagesProofs.

(* ------------------------------------------------------------------ *)
(** ** Read and archive status of the activity log *)

Module StatusStore.
Import Evaluator.

(** A row of [finops_activity_log] with its [id]. *)
Record LogRow : Type := mkLogRow {
  row_id : Z;
  row_event : Event
}.

(** The activity log and the two status tables.  Each status table has
    [activity_log_id] as its primary key: it is a partial function from
    the id to the instant ([read_at], [archived_at]). *)
Record Store : Type := mkStore {
  log : list LogRow;
  read_at : Z -> option Z;
  archived_at : Z -> option Z
}.

(** [INSERT ... ON CONFLICT (activity_log_id) DO UPDATE SET ... = NOW()]. *)
Definition upsert (f : Z -> option Z) (k v : Z) : Z -> option Z :=
  fun x => if x =? k then Some v else f x.

Definition is_none {A} (o : option A) : bool :=
  match o with None => true | Some _ => false end.

Definition week : Z := 7 * day.

(** [fal.timestamp >= NOW() - INTERVAL '7 days']. *)
Definition recent (now : Z) (r : LogRow) : bool :=
  ev_timestamp (row_event r) >=? now - week.

Inductive Answer : Type := Ok | NotFound | BadRequest.

(** [SELECT id FROM finops_activity_log WHERE id = $1] returns a row. *)
Definition exists_id (st : Store) (id : Z) : bool :=
  existsb (fun r => row_id r =? id) (log st).

(** [PUT /:id/read], database available. *)
Definition mark_read (now id : Z) (st : Store) : Answer * Store :=
  if exists_id st id
  then (Ok, mkStore (log st) (upsert (read_at st) id now) (archived_at st))
  else (NotFound, st).

(** [DELETE /:id], database available: the notification is archived. *)
Definition archive (now id : Z) (st : Store) : Answer * Store :=
  if exists_id st id
  then (Ok, mkStore (log st) (read_at st) (upsert (archived_at st) id now))
  else (NotFound, st).

(** The rows [PUT /read-all] selects: of the last seven days, with no read
    status and no archived status. *)
Definition unread_rows (now : Z) (st : Store) : list LogRow :=
  filter (fun r => recent now r
                   && is_none (read_at st (row_id r))
                   && is_none (archived_at st (row_id r))) (log st).

(** [INSERT ... SELECT ... ON CONFLICT (activity_log_id) DO NOTHING] of the
    ids in order: the number of rows inserted, and the table. *)
Fixpoint insert_do_nothing (now : Z) (ids : list Z) (f : Z -> option Z)
  : nat * (Z -> option Z) :=
  match ids with
  | [] => (0%nat, f)
  | k :: r =>
      match f k with
      | Some _ => insert_do_nothing now r f
      | None =>
          let (n, g) := insert_do_nothing now r (upsert f k now) in (S n, g)
      end
  end.

(** [PUT /read-all], database available: [user_id] is required; the answer
    carries [updated_count], the row count of the INSERT. *)
Definition mark_all_read (user_id_given : bool) (now : Z) (st : Store)
  : Answer * Z * Store :=
  if user_id_given then
    let (n, g) := insert_do_nothing now (map row_id (unread_rows now st)) (read_at st) in
    (Ok, Z.of_nat n, mkStore (log st) g (archived_at st))
  else (BadRequest, 0, st).

(** The counts of [GET /]: [total] and [unread_count] over the rows of the
    last seven days that are not archived. *)
Definition total (now : Z) (st : Store) : Z :=
  Z.of_nat (List.length
              (filter (fun r => recent now r && is_none (archived_at st (row_id r)))
                 (log st))).

Definition unread_count (now : Z) (st : Store) : Z :=
  Z.of_nat (List.length
              (filter (fun r => recent now r
                                && is_none (archived_at st (row_id r))
                                && is_none (read_at st (row_id r))) (log st))).

(** A log of two rows, a warning and an overdue notice of task 16, with
    no status yet. *)
Definition warning_row : LogRow :=
  mkLogRow 1 (mkEvent "sla_alert" 16 (Some 29) "System"
                "SLA Warning - 14 min remaining • need to start" 0).

Definition overdue_row : LogRow :=
  mkLogRow 2 (mkEvent "overdue_notification_sent" 16 (Some 29) "System"
                "Overdue by 20 min • 5 min ago" 0).

Definition two_rows : Store :=
  mkStore [warning_row; overdue_row] (fun _ => None) (fun _ => None).

End StatusStore.

Module StatusStoreProofs.
Import StatusStore ListFacts.

Lemma insert_do_nothing_table (now : Z) (ids : list Z) (f : Z -> option Z) (k : Z) :
  snd (insert_do_nothing now ids f) k
  = match f k with
    | Some v => Some v
    | None => if existsb (fun x => x =? k) ids then Some now else None
    end.
Proof.
  revert f; induction ids as [|i r IH]; intros f; cbn [insert_do_nothing existsb].
  - cbn [snd]. destruct (f k); reflexivity.
  - destruct (f i) as [v|] eqn:Fi.
    + rewrite IH. destruct (f k) eqn:Fk; [reflexivity|].
      destruct (i =? k) eqn:E; [apply Z.eqb_eq in E; congruence | reflexivity].
    + specialize (IH (upsert f i now)).
      destruct (insert_do_nothing now r (upsert f i now)) as [n g]. cbn [snd] in *.
      rewrite IH. unfold upsert. rewrite Z.eqb_sym.
      destruct (i =? k) eqn:E.
      * apply Z.eqb_eq in E. subst k. rewrite Fi. reflexivity.
      * destruct (f k); reflexivity.
Qed.

Lemma insert_do_nothing_count (now : Z) (ids : list Z) (f : Z -> option Z) :
  NoDup ids ->
  (forall k, In k ids -> f k = None) ->
  fst (insert_do_nothing now ids f) = List.length ids.
Proof.
  revert f; induction ids as [|i r IH]; intros f N H; [reflexivity|].
  cbn [insert_do_nothing]. rewrite (H i (or_introl eq_refl)).
  inversion N as [|? ? Ni Nr]; subst.
  specialize (IH (upsert f i now) Nr).
  destruct (insert_do_nothing now r (upsert f i now)) as [n g]. cbn [fst] in *.
  cbn [List.length]. f_equal. apply IH.
  intros k Hk. unfold upsert.
  destruct (k =? i) eqn:E; [apply Z.eqb_eq in E; subst; contradiction|].
  apply H. right; exact Hk.
Qed.

Lemma NoDup_map_filter {A} (key : A -> Z) (P : A -> bool) (l : list A) :
  NoDup (map key l) -> NoDup (map key (filter P l)).
Proof.
  induction l as [|a l IH]; cbn [map filter]; intros N; [constructor|].
  inversion N as [|? ? Na Nl]; subst.
  destruct (P a); [|apply IH; exact Nl].
  cbn [map]. constructor; [|apply IH; exact Nl].
  intros H. apply Na. apply in_map_iff in H. destruct H as [x [E Hx]].
  apply filter_In in Hx. rewrite <- E. apply in_map. exact (proj1 Hx).
Qed.

Lemma existsb_row_id (k : Z) (l : list LogRow) :
  In k (map row_id l) -> existsb (fun x => x =? k) (map row_id l) = true.
Proof.
  intros H. apply existsb_exists. exists k. split; [exact H | apply Z.eqb_refl].
Qed.

(** X19: [PUT /read-all] leaves nothing unread.  With a [user_id], the
    request answers OK; right after it the unread count of [GET /] is 0
    and the total is as before; [updated_count] equals the unread count
    before the request when the ids of the log are unique; a second
    request at the same instant updates nothing.
    Without a [user_id] the request is refused and nothing changes. *)
Theorem read_all_leaves_nothing_unread (now : Z) (st : Store) :
  (let '(a, n, st') := mark_all_read true now st in
   a = Ok
   /\ unread_count now st' = 0
   /\ total now st' = total now st
   /\ (NoDup (map row_id (log st)) -> n = unread_count now st)
   /\ mark_all_read true now st' = (Ok, 0, st'))
  /\ mark_all_read false now st = (BadRequest, 0, st).
Proof.
  split; [|reflexivity].
  unfold mark_all_read.
  pose proof (insert_do_nothing_table now (map row_id (unread_rows now st)) (read_at st)) as T.
  pose proof (insert_do_nothing_count now (map row_id (unread_rows now st)) (read_at st)) as C.
  destruct (insert_do_nothing now (map row_id (unread_rows now st)) (read_at st)) as [n g].
  cbn [fst snd] in *.
  assert (U : unread_rows now (mkStore (log st) g (archived_at st)) = []).
  { unfold unread_rows. cbn [log read_at archived_at]. apply filter_none.
    intros r Hr. rewrite T.
    destruct (recent now r) eqn:R; [|reflexivity].
    destruct (read_at st (row_id r)) eqn:Rd; [reflexivity|].
    destruct (archived_at st (row_id r)) eqn:Ar; [rewrite andb_false_r; reflexivity|].
    rewrite existsb_row_id; [reflexivity|].
    apply in_map. unfold unread_rows. apply filter_In. split; [exact Hr|].
    rewrite R, Rd, Ar. reflexivity. }
  split; [reflexivity|]. split; [|split; [reflexivity|split]].
  - unfold unread_count. cbn [log read_at archived_at].
    unfold unread_rows in U. cbn [log read_at archived_at] in U.
    rewrite (filter_ext_eq _ (fun r => recent now r && is_none (g (row_id r))
                                      && is_none (archived_at st (row_id r)))).
    + rewrite U. reflexivity.
    + intros r. destruct (recent now r), (is_none (g (row_id r))),
        (is_none (archived_at st (row_id r))); reflexivity.
  - intros N. rewrite C.
    + rewrite length_map. unfold unread_count, unread_rows. f_equal. f_equal.
      apply filter_ext_eq. intros r.
      destruct (recent now r), (is_none (read_at st (row_id r))),
        (is_none (archived_at st (row_id r))); reflexivity.
    + apply NoDup_map_filter. exact N.
    + intros k Hk. apply in_map_iff in Hk. destruct Hk as [r [<- Hr]].
      unfold unread_rows in Hr. apply filter_In in Hr. destruct Hr as [_ Hr].
      destruct (read_at st (row_id r)); [|reflexivity].
      rewrite andb_false_r in Hr. discriminate.
  - rewrite U. reflexivity.
Qed.


Lemma length_filter_without_key {A} (key : A -> Z) (P : A -> bool) (r : A) (l : list A) :
  NoDup (map key l) -> In r l ->
  List.length (filter P l)
  = ((if P r then 1 else 0)
     + List.length (filter (fun x => P x && negb (key x =? key r)%Z) l))%nat.
Proof.
  induction l as [|a l IH]; cbn [map filter]; intros N H; [contradiction|].
  inversion N as [|? ? Na Nl]; subst.
  destruct H as [->|H].
  - rewrite Z.eqb_refl, andb_false_r.
    rewrite (filter_ext_in (fun x => P x && negb (key x =? key r)) P).
    + destruct (P r); reflexivity.
    + intros x Hx. destruct (key x =? key r) eqn:E; [|apply andb_true_r].
      apply Z.eqb_eq in E. exfalso. apply Na. rewrite <- E. apply in_map; exact Hx.
  - assert (E : (key a =? key r) = false).
    { apply Z.eqb_neq. intros E. apply Na. rewrite E. apply in_map; exact H. }
    rewrite E, andb_true_r.
    destruct (P a); cbn [List.length]; rewrite (IH Nl H); destruct (P r); lia.
Qed.

Lemma exists_id_in (st : Store) (r : LogRow) :
  In r (log st) -> exists_id st (row_id r) = true.
Proof.
  intros H. unfold exists_id. apply existsb_exists.
  exists r. split; [exact H | apply Z.eqb_refl].
Qed.

Lemma exists_id_absent (st : Store) (id : Z) :
  ~ In id (map row_id (log st)) -> exists_id st id = false.
Proof.
  intros H. unfold exists_id.
  destruct (existsb (fun r => row_id r =? id) (log st)) eqn:E; [|reflexivity].
  apply existsb_exists in E. destruct E as [r [Hr E]].
  apply Z.eqb_eq in E. exfalso. apply H. rewrite <- E. apply in_map; exact Hr.
Qed.

(** The unread count of a store whose row [r] got a read or an archived
    status, in terms of the count before. *)
Lemma count_without (P Q : LogRow -> bool) (r : LogRow) (l : list LogRow) :
  NoDup (map row_id l) -> In r l ->
  (forall x, Q x = P x && negb (row_id x =? row_id r)) ->
  Z.of_nat (List.length (filter Q l))
  = Z.of_nat (List.length (filter P l)) - (if P r then 1 else 0).
Proof.
  intros N H E.
  rewrite (length_filter_without_key row_id P r l N H).
  rewrite (filter_ext_eq Q (fun x => P x && negb (row_id x =? row_id r)))
    by (intros x; apply E).
  destruct (P r); lia.
Qed.

(** X20: [PUT /:id/read] marks one notification.  For a row [r] of a log
    with unique ids, the request answers OK, leaves the total of [GET /]
    as it is and lowers the unread count by one exactly when [r] was
    counted as unread (recent, not archived, no read status), by nothing
    otherwise; a second request for the same id changes neither count.
    An id that is not in the log is answered with "not found" and the
    store is left as it is. *)
Theorem mark_read_lowers_unread_by_one
  (now later now' : Z) (st : Store) (r : LogRow) :
  NoDup (map row_id (log st)) ->
  In r (log st) ->
  let st' := snd (mark_read now (row_id r) st) in
  let st'' := snd (mark_read later (row_id r) st') in
  fst (mark_read now (row_id r) st) = Ok
  /\ total now' st' = total now' st
  /\ unread_count now' st'
     = unread_count now' st
       - (if recent now' r && is_none (archived_at st (row_id r))
             && is_none (read_at st (row_id r)) then 1 else 0)
  /\ unread_count now' st'' = unread_count now' st'
  /\ total now' st'' = total now' st'
  /\ forall id, ~ In id (map row_id (log st)) ->
                mark_read now id st = (NotFound, st).
Proof.
  intros N H. unfold mark_read at 1 2 3.
  rewrite (exists_id_in st r H). cbn [fst snd]. cbv zeta.
  unfold mark_read. cbn [log]. 
  replace (exists_id
             (mkStore (log st) (upsert (read_at st) (row_id r) now) (archived_at st))
             (row_id r)) with true
    by (symmetry; apply (exists_id_in (mkStore (log st) _ _) r H)).
  cbn [snd]. unfold total, unread_count. cbn [log read_at archived_at].
  split; [reflexivity|]. split; [reflexivity|]. split; [|split; [|split; [reflexivity|]]].
  - apply (count_without
             (fun x => recent now' x && is_none (archived_at st (row_id x))
                       && is_none (read_at st (row_id x)))
             (fun x => recent now' x && is_none (archived_at st (row_id x))
                       && is_none (upsert (read_at st) (row_id r) now (row_id x)))
             r (log st) N H).
    intros x. unfold upsert.
    destruct (row_id x =? row_id r); cbn [is_none negb];
      [rewrite !andb_false_r; reflexivity | rewrite andb_true_r; reflexivity].
  - f_equal. f_equal. apply filter_ext_eq. intros x. unfold upsert.
    destruct (row_id x =? row_id r); reflexivity.
  - intros id Hid. rewrite (exists_id_absent st id Hid). reflexivity.
Qed.

Lemma two_rows_ids_unique : NoDup (map row_id (log two_rows)).
Proof.
  cbn. constructor; [intros [E|[]]; discriminate|].
  constructor; [intros []|constructor].
Defined.

Lemma mark_read_lowers_unread_by_one_witness :
  unread_count 0 (snd (mark_read 0 1 two_rows)) = 1.
Proof.
  pose proof (mark_read_lowers_unread_by_one 0 0 0 two_rows warning_row
                two_rows_ids_unique (or_introl eq_refl)) as K.
  cbv zeta in K. destruct K as [_ [_ [K _]]]. exact K.
Defined.

(** X21: [DELETE /:id] archives and hides.  For a row [r] of a log with
    unique ids, the request answers OK and keeps the row in the log; the
    total of [GET /] drops by one exactly when [r] was counted (recent and
    not archived before), the unread count by one exactly when [r] was
    counted as unread; a later [PUT /read-all] leaves the read status of
    the archived row as it was.  An id that is not in the log is answered with
    "not found" and the store is left as it is. *)
Theorem archive_hides_the_notification
  (now later now' : Z) (st : Store) (r : LogRow) :
  NoDup (map row_id (log st)) ->
  In r (log st) ->
  let st' := snd (archive now (row_id r) st) in
  fst (archive now (row_id r) st) = Ok
  /\ log st' = log st
  /\ total now' st'
     = total now' st
       - (if recent now' r && is_none (archived_at st (row_id r)) then 1 else 0)
  /\ unread_count now' st'
     = unread_count now' st
       - (if recent now' r && is_none (archived_at st (row_id r))
             && is_none (read_at st (row_id r)) then 1 else 0)
  /\ read_at (snd (mark_all_read true later st')) (row_id r) = read_at st (row_id r)
  /\ forall id, ~ In id (map row_id (log st)) ->
                archive now id st = (NotFound, st).
Proof.
  intros N H. unfold archive at 1 2.
  rewrite (exists_id_in st r H). cbn [fst snd]. cbv zeta.
  split; [reflexivity|]. split; [reflexivity|].
  split; [|split; [|split]].
  - unfold total. cbn [log archived_at].
    apply (count_without
             (fun x => recent now' x && is_none (archived_at st (row_id x)))
             (fun x => recent now' x
                       && is_none (upsert (archived_at st) (row_id r) now (row_id x)))
             r (log st) N H).
    intros x. unfold upsert.
    destruct (row_id x =? row_id r); cbn [is_none negb];
      [rewrite !andb_false_r; reflexivity | rewrite andb_true_r; reflexivity].
  - unfold unread_count. cbn [log read_at archived_at].
    apply (count_without
             (fun x => recent now' x && is_none (archived_at st (row_id x))
                       && is_none (read_at st (row_id x)))
             (fun x => recent now' x
                       && is_none (upsert (archived_at st) (row_id r) now (row_id x))
                       && is_none (read_at st (row_id x)))
             r (log st) N H).
    intros x. unfold upsert.
    destruct (row_id x =? row_id r); cbn [is_none negb].
    + rewrite !andb_false_r. reflexivity.
    + rewrite andb_true_r. reflexivity.
  - unfold mark_all_read.
    set (st' := mkStore (log st) (read_at st) (upsert (archived_at st) (row_id r) now)).
    pose proof (insert_do_nothing_table later (map row_id (unread_rows later st'))
                  (read_at st') (row_id r)) as T.
    destruct (insert_do_nothing later (map row_id (unread_rows later st')) (read_at st'))
      as [n g].
    cbn [fst snd read_at] in *. rewrite T. subst st'. cbn [read_at].
    destruct (read_at st (row_id r)) eqn:Rd; [reflexivity|].
    destruct (existsb (fun x => x =? row_id r) _) eqn:E; [|reflexivity].
    apply existsb_exists in E. destruct E as [k [Hk E]].
    apply Z.eqb_eq in E. subst k.
    apply in_map_iff in Hk. destruct Hk as [x [Ex Hx]].
    unfold unread_rows in Hx. apply filter_In in Hx. destruct Hx as [_ Hx].
    cbn [archived_at] in Hx. unfold upsert in Hx. rewrite Ex, Z.eqb_refl in Hx.
    cbn [is_none] in Hx. rewrite andb_false_r in Hx. discriminate.
  - intros id Hid. unfold archive. rewrite (exists_id_absent st id Hid). reflexivity.
Qed.

Lemma archive_hides_the_notification_witness :
  total 0 (snd (archive 0 1 two_rows)) = 1
  /\ read_at (snd (mark_all_read true 0 (snd (archive 0 1 two_rows)))) 1 = None.
Proof.
  pose proof (archive_hides_the_notification 0 0 0 two_rows warning_row
                two_rows_ids_unique (or_introl eq_refl)) as K.
  cbv zeta in K. destruct K as [_ [_ [K [_ [R _]]]]].
  split; [exact K | exact R].
Defined.

End StatusStoreProofs.

(* ------------------------------------------------------------------ *)
(** ** [POST /sync-sla-warning-time] *)

Module WarningSync.
Import Text StatusStore.

(** The fields the route reads from the request body; [action] has the
    default ["sla_alert"]. *)
Record Body : Type := mkBody {
  task_id : Z;
  subtask_id : option Z;
  remaining_minutes : Z;
  action : option string
}.

(** The WHERE clause shared by [checkCurrentQuery] and [archiveQuery]:
    a warning of the task that is not archived. *)
Definition active_warning (st : Store) (task : Z) (r : LogRow) : bool :=
  (Evaluator.ev_task_id (row_event r) =? task)
  && includes (toLowerCase (Evaluator.ev_details (row_event r))) "sla warning"
  && includes (toLowerCase (Evaluator.ev_details (row_event r))) "min remaining"
  && is_none (archived_at st (row_id r)).

Definition active_warnings (st : Store) (task : Z) : list LogRow :=
  filter (active_warning st task) (log st).

(** What [checkCurrentQuery] may return ([ORDER BY timestamp DESC LIMIT 1]):
    no row when there is no active warning, otherwise one of the latest. *)
Definition is_current (st : Store) (task : Z) (o : option LogRow) : Prop :=
  match o with
  | None => active_warnings st task = []
  | Some r =>
      In r (active_warnings st task)
      /\ forall x, In x (active_warnings st task) ->
                   Evaluator.ev_timestamp (row_event x)
                   <= Evaluator.ev_timestamp (row_event r)
  end.

(** [shouldUpdate]: false only when the current row shows a count within
    one minute of the requested one. *)
Definition shouldUpdate (current : option LogRow) (remaining : Z) : bool :=
  match current with
  | None => true
  | Some r =>
      match find_first re_min_remaining (Evaluator.ev_details (row_event r)) with
      | Some ds => negb (Z.abs (digits_val ds - remaining) <=? 1)
      | None => true
      end
  end.

Definition warning_details (remaining : Z) : string :=
  "SLA Warning - " ++ show_Z remaining ++ " min remaining • need to start".

(** The row of [insertQuery]; [subtask_id || null]. *)
Definition new_row (t_insert new_id : Z) (b : Body) : LogRow :=
  mkLogRow new_id
    (Evaluator.mkEvent
       (match action b with Some a => a | None => "sla_alert" end)
       (task_id b)
       (match subtask_id b with Some 0 => None | s => s end)
       "System"
       (warning_details (remaining_minutes b))
       t_insert).

Inductive SyncAnswer : Type :=
| Refused
| NoUpdateNeeded
| Synchronized (notification : LogRow) (archived_count : Z) (updated_from_previous : bool).

(** The route with the database available.  [current] is the result of
    [checkCurrentQuery], [t_archive] and [t_insert] the instants of the two
    statements, [new_id] the serial id given to the inserted row. *)
Definition sync_sla_warning_time
  (current : option LogRow) (t_archive t_insert new_id : Z) (b : Body) (st : Store)
  : SyncAnswer * Store :=
  if (task_id b =? 0) || (remaining_minutes b =? 0) then (Refused, st)
  else if negb (shouldUpdate current (remaining_minutes b)) then (NoUpdateNeeded, st)
  else
    let (n, arch) :=
      insert_do_nothing t_archive (map row_id (active_warnings st (task_id b)))
        (archived_at st) in
    (Synchronized (new_row t_insert new_id b) (Z.of_nat n)
       (match current with Some _ => true | None => false end),
     mkStore (log st ++ [new_row t_insert new_id b]) (read_at st) arch).

(** The two-row store after a synchronisation of task 16 to 8 minutes. *)
Definition after_sync : Store :=
  snd (sync_sla_warning_time (Some warning_row) 5 6 3 (mkBody 16 (Some 29) 8 None)
         two_rows).

End WarningSync.

Module WarningSyncProofs.
Import Text StatusStore WarningSync ListFacts StatusStoreProofs.

Lemma includes_app_r (a b x : string) :
  includes b x = true -> includes (a ++ b) x = true.
Proof.
  intros H. induction a as [|c a IH]; cbn [append]; [exact H|].
  cbn [includes]. rewrite IH. apply orb_true_r.
Qed.

Lemma warning_details_like (n : Z) :
  includes (toLowerCase (warning_details n)) "sla warning" = true
  /\ includes (toLowerCase (warning_details n)) "min remaining" = true.
Proof.
  unfold warning_details. rewrite !ServedProofs.toLowerCase_app. split.
  - reflexivity.
  - apply includes_app_r. apply includes_app_r. reflexivity.
Qed.

Lemma existsb_absent (k : Z) (l : list Z) :
  ~ In k l -> existsb (fun x => x =? k) l = false.
Proof.
  intros H. destruct (existsb (fun x => x =? k) l) eqn:E; [|reflexivity].
  apply existsb_exists in E. destruct E as [x [Hx E]].
  apply Z.eqb_eq in E. subst x. contradiction.
Qed.

Lemma active_warnings_ids (st : Store) (task k : Z) :
  In k (map row_id (active_warnings st task)) -> In k (map row_id (log st)).
Proof.
  intros H. apply in_map_iff in H. destruct H as [r [<- Hr]].
  apply in_map. unfold active_warnings in Hr. apply filter_In in Hr. exact (proj1 Hr).
Qed.

Section Update.
Variables (current : option LogRow) (t_archive t_insert new_id : Z) (b : Body) (st : Store).
Hypothesis task_given : task_id b <> 0.
Hypothesis minutes_given : remaining_minutes b <> 0.
Hypothesis update : shouldUpdate current (remaining_minutes b) = true.
Hypothesis ids_unique : NoDup (map row_id (log st)).
Hypothesis fresh : ~ In new_id (map row_id (log st)).
Hypothesis fresh_status : archived_at st new_id = None.

Let out := sync_sla_warning_time current t_archive t_insert new_id b st.
Let ids := map row_id (active_warnings st (task_id b)).

Lemma sync_out :
  out = (Synchronized (new_row t_insert new_id b)
           (Z.of_nat (fst (insert_do_nothing t_archive ids (archived_at st))))
           (match current with Some _ => true | None => false end),
         mkStore (log st ++ [new_row t_insert new_id b]) (read_at st)
           (snd (insert_do_nothing t_archive ids (archived_at st)))).
Proof.
  subst out ids. unfold sync_sla_warning_time.
  destruct (task_id b =? 0) eqn:T; [apply Z.eqb_eq in T; contradiction|].
  destruct (remaining_minutes b =? 0) eqn:M; [apply Z.eqb_eq in M; contradiction|].
  rewrite update. cbn [orb negb].
  destruct (insert_do_nothing t_archive _ (archived_at st)) as [n g]. reflexivity.
Qed.

Lemma sync_archived (k : Z) :
  archived_at (snd out) k
  = match archived_at st k with
    | Some v => Some v
    | None => if existsb (fun x => x =? k) ids then Some t_archive else None
    end.
Proof. rewrite sync_out. cbn [snd archived_at]. apply insert_do_nothing_table. Qed.

Lemma sync_old_rows_inactive (r : LogRow) :
  In r (log st) -> active_warning (snd out) (task_id b) r = false.
Proof.
  intros H. unfold active_warning. rewrite sync_archived.
  destruct (archived_at st (row_id r)) eqn:A; [apply andb_false_r|].
  destruct (active_warning st (task_id b) r) eqn:W.
  - unfold ids. rewrite existsb_row_id; [apply andb_false_r|].
    apply in_map. unfold active_warnings. apply filter_In. split; assumption.
  - unfold active_warning in W. rewrite A in W. cbn [is_none] in W.
    rewrite andb_true_r in W. rewrite W. reflexivity.
Qed.

Lemma sync_new_row_active :
  active_warning (snd out) (task_id b) (new_row t_insert new_id b) = true.
Proof.
  unfold active_warning. rewrite sync_archived.
  cbn [new_row row_id row_event Evaluator.ev_task_id Evaluator.ev_details].
  rewrite Z.eqb_refl.
  destruct (warning_details_like (remaining_minutes b)) as [-> ->].
  rewrite fresh_status. rewrite existsb_absent; [reflexivity|].
  intros H. apply fresh. exact (active_warnings_ids st (task_id b) new_id H).
Qed.

Lemma sync_active_after :
  active_warnings (snd out) (task_id b) = [new_row t_insert new_id b].
Proof.
  unfold active_warnings. rewrite sync_out at 2. cbn [snd log].
  rewrite filter_app. cbn [filter]. rewrite sync_new_row_active.
  rewrite filter_none; [reflexivity|].
  intros x Hx. apply sync_old_rows_inactive. exact Hx.
Qed.

Lemma sync_other_tasks (t : Z) :
  t <> task_id b -> active_warnings (snd out) t = active_warnings st t.
Proof.
  intros Ht. unfold active_warnings. rewrite sync_out at 2. cbn [snd log].
  rewrite filter_app. cbn [filter].
  assert (E : active_warning (snd out) t (new_row t_insert new_id b) = false).
  { unfold active_warning.
    cbn [new_row row_id row_event Evaluator.ev_task_id].
    destruct (task_id b =? t) eqn:E; [apply Z.eqb_eq in E; congruence | reflexivity]. }
  rewrite E, app_nil_r.
  apply filter_ext_in. intros x Hx. unfold active_warning. rewrite sync_archived.
  destruct (Evaluator.ev_task_id (row_event x) =? t) eqn:Tx; [|reflexivity].
  apply Z.eqb_eq in Tx.
  destruct (archived_at st (row_id x)) eqn:A; [reflexivity|].
  rewrite existsb_absent; [reflexivity|].
  intros H. subst ids. apply in_map_iff in H. destruct H as [y [Ey Hy]].
  unfold active_warnings in Hy. apply filter_In in Hy. destruct Hy as [Hy Wy].
  assert (y = x).
  { pose proof (filter_key_unique row_id x (log st) ids_unique Hx) as U.
    assert (I : In y (filter (fun z => row_id z =? row_id x) (log st))).
    { apply filter_In. split; [exact Hy | apply Z.eqb_eq; exact Ey]. }
    rewrite U in I. destruct I as [I|[]]. symmetry; exact I. }
  subst y. unfold active_warning in Wy.
  destruct (Evaluator.ev_task_id (row_event x) =? task_id b) eqn:Tb;
    [apply Z.eqb_eq in Tb; congruence | discriminate].
Qed.

Lemma sync_count :
  fst (insert_do_nothing t_archive ids (archived_at st))
  = List.length (active_warnings st (task_id b)).
Proof.
  rewrite insert_do_nothing_count.
  - subst ids. apply length_map.
  - subst ids. apply NoDup_map_filter. exact ids_unique.
  - intros k Hk. subst ids. apply in_map_iff in Hk. destruct Hk as [r [<- Hr]].
    unfold active_warnings in Hr. apply filter_In in Hr. destruct Hr as [_ Hr].
    unfold active_warning in Hr.
    destruct (archived_at st (row_id r)); [|reflexivity].
    rewrite andb_false_r in Hr. discriminate.
Qed.

End Update.

(** X22: a synchronisation leaves one active warning.  When the route
    updates (task and minutes given, no current row within one minute),
    on a log with unique ids and a fresh id for the inserted row, it
    answers with the inserted row, [archived_count] is the number of
    warnings of the task that were active, and afterwards the inserted
    row is the only active warning of the task; it reads
    "SLA Warning - N min remaining • need to start" for the requested N.
    The active warnings of every other task are as before. *)
Theorem sync_leaves_one_active_warning
  (current : option LogRow) (t_archive t_insert new_id : Z) (b : Body) (st : Store) :
  task_id b <> 0 ->
  remaining_minutes b <> 0 ->
  shouldUpdate current (remaining_minutes b) = true ->
  NoDup (map row_id (log st)) ->
  ~ In new_id (map row_id (log st)) ->
  archived_at st new_id = None ->
  let out := sync_sla_warning_time current t_archive t_insert new_id b st in
  fst out = Synchronized (new_row t_insert new_id b)
              (Z.of_nat (List.length (active_warnings st (task_id b))))
              (match current with Some _ => true | None => false end)
  /\ active_warnings (snd out) (task_id b) = [new_row t_insert new_id b]
  /\ Evaluator.ev_details (row_event (new_row t_insert new_id b))
     = "SLA Warning - " ++ show_Z (remaining_minutes b) ++ " min remaining • need to start"
  /\ forall t, t <> task_id b -> active_warnings (snd out) t = active_warnings st t.
Proof.
  intros T M U N F A out. subst out.
  split; [|split; [|split]].
  - rewrite (sync_out current t_archive t_insert new_id b st T M U). cbn [fst].
    rewrite (sync_count t_archive b st N). reflexivity.
  - exact (sync_active_after current t_archive t_insert new_id b st T M U F A).
  - reflexivity.
  - intros t Ht.
    exact (sync_other_tasks current t_archive t_insert new_id b st T M U N t Ht).
Qed.

Lemma sync_leaves_one_active_warning_witness :
  active_warnings
    (snd (sync_sla_warning_time (Some warning_row) 5 6 3 (mkBody 16 (Some 29) 8 None)
            two_rows)) 16
  = [new_row 6 3 (mkBody 16 (Some 29) 8 None)].
Proof.
  assert (F : ~ In 3 (map row_id (log two_rows))).
  { cbn. intros [E|[E|[]]]; discriminate. }
  pose proof (sync_leaves_one_active_warning (Some warning_row) 5 6 3
                (mkBody 16 (Some 29) 8 None) two_rows
                ltac:(cbn; discriminate) ltac:(cbn; discriminate)
                ltac:(vm_compute; reflexivity) two_rows_ids_unique F eq_refl) as K.
  cbv zeta in K. destruct K as [_ [K _]]. exact K.
Defined.

(** X23: a repeated synchronisation is not needed.  After an update for
    [N > 0] minutes, whatever row the current-warning query returns, a
    request for the same task with a count within one minute of [N] is
    answered "no update needed" and leaves the store as it is. *)
Theorem sync_again_within_a_minute_is_no_update
  (current current' : option LogRow) (t_archive t_insert new_id : Z) (b b' : Body)
  (st : Store) (t_archive' t_insert' new_id' : Z) :
  task_id b <> 0 ->
  0 < remaining_minutes b ->
  shouldUpdate current (remaining_minutes b) = true ->
  ~ In new_id (map row_id (log st)) ->
  archived_at st new_id = None ->
  task_id b' = task_id b ->
  remaining_minutes b' <> 0 ->
  Z.abs (remaining_minutes b - remaining_minutes b') <= 1 ->
  let st' := snd (sync_sla_warning_time current t_archive t_insert new_id b st) in
  is_current st' (task_id b) current' ->
  sync_sla_warning_time current' t_archive' t_insert' new_id' b' st'
  = (NoUpdateNeeded, st').
Proof.
  intros T M U F A T' M' D st' C.
  assert (M0 : remaining_minutes b <> 0) by lia.
  pose proof (sync_active_after current t_archive t_insert new_id b st T M0 U F A) as W.
  fold st' in W.
  assert (E : current' = Some (new_row t_insert new_id b)).
  { destruct current' as [r|]; cbn [is_current] in C.
    - destruct C as [C _]. rewrite W in C. destruct C as [C|[]]. rewrite C. reflexivity.
    - rewrite W in C. discriminate. }
  unfold sync_sla_warning_time. rewrite T'.
  destruct (task_id b =? 0) eqn:T0; [apply Z.eqb_eq in T0; contradiction|].
  destruct (remaining_minutes b' =? 0) eqn:M1; [apply Z.eqb_eq in M1; contradiction|].
  cbn [orb]. rewrite E. unfold shouldUpdate.
  cbn [new_row row_event Evaluator.ev_details]. unfold warning_details.
  change ("SLA Warning - " ++ show_Z (remaining_minutes b) ++ " min remaining • need to start")
    with ("SLA Warning - " ++ show_Z (remaining_minutes b) ++ " min remaining"
            ++ " • need to start").
  rewrite DigitsProofs.warning_detail_parsed by lia.
  rewrite DigitsProofs.digits_val_show_Z by lia.
  replace (Z.abs (remaining_minutes b - remaining_minutes b') <=? 1) with true
    by (symmetry; apply Z.leb_le; exact D).
  reflexivity.
Qed.

Lemma sync_again_within_a_minute_is_no_update_witness :
  sync_sla_warning_time (Some (new_row 6 3 (mkBody 16 (Some 29) 8 None))) 7 8 4
    (mkBody 16 None 9 None) after_sync
  = (NoUpdateNeeded, after_sync).
Proof.
  assert (F : ~ In 3 (map row_id (log two_rows))).
  { cbn. intros [E|[E|[]]]; discriminate. }
  assert (W : active_warnings after_sync 16
              = [new_row 6 3 (mkBody 16 (Some 29) 8 None)]).
  { vm_compute. reflexivity. }
  assert (C : is_current after_sync 16
                (Some (new_row 6 3 (mkBody 16 (Some 29) 8 None)))).
  { cbn [is_current]. rewrite W. split; [left; reflexivity|].
    intros x [<-|[]]. apply Z.le_refl. }
  apply (sync_again_within_a_minute_is_no_update (Some warning_row)
           (Some (new_row 6 3 (mkBody 16 (Some 29) 8 None))) 5 6 3
           (mkBody 16 (Some 29) 8 None) (mkBody 16 None 9 None) two_rows 7 8 4).
  - cbn; discriminate.
  - cbn; lia.
  - vm_compute; reflexivity.
  - exact F.
  - reflexivity.
  - reflexivity.
  - cbn; discriminate.
  - cbn; lia.
  - exact C.
Defined.

End WarningSyncProofs.


(* ------------------------------------------------------------------ *)
(** ** [POST /create-overdue-from-sla] *)

Module OverdueRoute.
Import Text StatusStore.

(** The fields the route reads from the request body; a missing
    [overdue_minutes] is [None]. *)
Record Body : Type := mkBody {
  task_id : Z;
  subtask_id : option Z;
  overdue_minutes : option Z;
  original_sla_warning_id : option Z
}.

(** [timeAgo]: the whole minutes between [currentTime] and [overdueTime],
    which lies [overdue_minutes] minutes before it. *)
Definition timeAgo (currentTime m : Z) : Z :=
  (currentTime - (currentTime - m * 60000)) / 60000.

(** The row of [insertQuery]; [subtask_id || null]. *)
Definition new_row (t_insert currentTime new_id : Z) (b : Body) (m : Z) : LogRow :=
  mkLogRow new_id
    (Evaluator.mkEvent "overdue_notification_sent"
       (task_id b)
       (match subtask_id b with Some 0 => None | s => s end)
       "System"
       ("Overdue by " ++ show_Z m ++ " min • " ++ show_Z (timeAgo currentTime m)
        ++ " min ago")
       t_insert).

Inductive Answer : Type :=
| Refused
| Failed
| Created (notification : LogRow) (archived_original : bool).



End OverdueRoute.

(* ------------------------------------------------------------------ *)
(** ** Events written by the routes, as the notification centre shows them *)

Module ServedRoutesProofs.
Import Text TextProofs DigitsProofs Client ClientProofs ServedProofs.

Lemma is_str_neq (a lit : string) : a <> lit -> is_str (Some a) lit = false.
Proof. intros H. cbn [is_str]. apply String.eqb_neq. exact H. Qed.

(** X1: a synchronised warning in the notification centre.  The event
    that [POST /sync-sla-warning-time] inserts for [N] minutes (between 1
    and 2^31, with an action tag other than [overdue_notification_sent]),
    served with the creation instant [t0] and read at [now] (within
    2^40 ms of it), is shown as a warning with the text
    "SLA Warning - c min remaining • need to start" while the exact
    remaining time [N min - (now - t0)] is positive, [c] being its
    ceiling in minutes; afterwards it is shown as overdue, with priority
    critical. *)
Theorem synced_warning_counts_down
  (b : WarningSync.Body) (t_insert new_id t0 now : Z) (is_read : bool) :
  0 < WarningSync.remaining_minutes b <= 2 ^ 31 ->
  Z.abs (now - t0) <= 2 ^ 40 ->
  match WarningSync.action b with Some a => a | None => "sla_alert" end
    <> "overdue_notification_sent" ->
  let exact := WarningSync.remaining_minutes b * 60000 - (now - t0) in
  let out := transformDbNotification (Some now)
               (Served.row
                  (StatusStore.row_event (WarningSync.new_row t_insert new_id b))
                  t0 is_read) in
  (0 < exact ->
     type out = sla_warning
     /\ message out
        = "SLA Warning - " ++ show_Z (ceil_minutes exact) ++ " min remaining • need to start"
     /\ sla_remaining out = Some (show_Z (ceil_minutes exact) ++ " min remaining")
     /\ action_required out = true)
  /\ (exact <= 0 ->
        type out = sla_overdue
        /\ priority out = critical
        /\ message out
           = overdue_text (floor_minutes (- exact)) (floor_minutes (now - t0))).
Proof.
  intros [HR _] _ Ha exact out.
  set (R := WarningSync.remaining_minutes b) in *.
  assert (HR0 : 0 <= R) by lia.
  set (n := Served.row (StatusStore.row_event (WarningSync.new_row t_insert new_id b))
              t0 is_read).
  set (txt := "SLA Warning - " ++ show_Z R ++ " min remaining • need to start").
  assert (Hdet : details n = Some txt) by reflexivity.
  assert (Hc : created_at n = Some t0) by reflexivity.
  assert (Hact : is_str (action n) "overdue_notification_sent" = false)
    by (apply is_str_neq; exact Ha).
  assert (Hw : includes txt "SLA Warning - " = true)
    by (apply includes_prefix, prefix_app_same).
  assert (Hm : find_first re_min_remaining txt = Some (show_Z R))
    by (apply (warning_detail_parsed R " • need to start" HR0)).
  assert (Hl : live (Some now) n
               = warning_step (Some now) n (overdue_step (Some now) n (initial_live n)))
    by reflexivity.
  rewrite (warning_step_eq n _ txt (show_Z R) t0 now Hdet Hc Hw Hm) in Hl.
  rewrite (digits_val_show_Z R HR0) in Hl. cbv zeta in Hl. fold exact in Hl.
  rewrite overdue_step_not_expired in Hl.
  split.
  - intros Hpos. subst out. fold n. unfold transformDbNotification. cbv zeta. rewrite Hl.
    destruct (exact <=? 0) eqn:E; [apply Z.leb_le in E; lia|].
    pose proof (ceil_minutes_spec exact) as C.
    cbn [type message sla_remaining action_required realTimeDetails
         realTimeSlaRemaining].
    rewrite Z.max_r by lia.
    rewrite (notificationType_warning _ n txt);
      [ | reflexivity | exact Hact | exact Hdet
        | apply warning_detail_not_overdue; exact HR0
        | exact (find_min_remaining_includes txt _ Hm) ].
    split; [reflexivity|]. split; [|split; [reflexivity|]].
    + unfold txt. apply warning_detail_rewritten; exact HR0.
    + cbn [NotificationType_eqb orb andb isExpiredSLA]. rewrite Hdet. cbn [includes_opt].
      rewrite (find_min_remaining_includes txt _ Hm). reflexivity.
  - intros Hneg. subst out. fold n. unfold transformDbNotification. cbv zeta. rewrite Hl.
    destruct (exact <=? 0) eqn:E; [|apply Z.leb_gt in E; lia].
    cbn [type priority message realTimeDetails isExpiredSLA notificationType].
    rewrite orb_true_r. rewrite Z.abs_neq by lia. repeat split.
Qed.

Lemma synced_warning_counts_down_witness :
  message (transformDbNotification (Some (1000 + 5 * 60000))
             (Served.row
                (StatusStore.row_event
                   (WarningSync.new_row 7 3 (WarningSync.mkBody 16 (Some 29) 14 None)))
                1000 false))
  = "SLA Warning - 9 min remaining • need to start".
Proof.
  pose proof (synced_warning_counts_down (WarningSync.mkBody 16 (Some 29) 14 None)
                7 3 1000 (1000 + 5 * 60000) false
                ltac:(vm_compute; split; [reflexivity | discriminate])
                ltac:(vm_compute; discriminate)
                ltac:(vm_compute; discriminate)) as H.
  cbv zeta in H. destruct H as [H _].
  exact (proj1 (proj2 (H ltac:(vm_compute; reflexivity)))).
Defined.




End ServedRoutesProofs.
